(** * Azkaban CLI ([azkaban/__main__.py]): a shallow embedding

    The command line client is a thin layer of Python over three
    collaborators that are not part of the module: the project loader
    ([azkaban.project.Project]), the remote session
    ([azkaban.remote.Session], [Execution]) and a few utilities
    ([azkaban.util]).  The functions of [__main__.py] are embedded below as
    Rocq functions; the collaborators are parameters (a record of server
    behaviours, a loader function), so that every statement holds for all
    remotes and all loaders, and every definition still evaluates on a
    concrete one.

    The module is Python 2 code: its strings are byte strings, [repr] and
    [%s] are those of [str], and [line.encode('utf-8')] written with [%s]
    is the line itself. *)

From Stdlib Require Import Ascii String.
From stdpp Require Import base strings gmap list sorting.

Local Open Scope string_scope.

(** ** Python values as [docopt] hands them out

    [docopt] maps a flag to a [bool], an option with an argument to a [str]
    or [None], a repeated positional to a list of [str]. *)

Inductive pyval : Type :=
  | VNone
  | VBool (b : bool)
  | VStr (s : string)
  | VList (l : list string).

#[global] Instance pyval_eq_dec : EqDecision pyval.
Proof. solve_decision. Defined.

(** Python truthiness, as used by [if x], [x or y], [not x]. *)
Definition truthy (v : pyval) : bool :=
  match v with
  | VNone => false
  | VBool b => b
  | VStr s => negb (String.eqb s EmptyString)
  | VList l => match l with [] => false | _ => true end
  end.

(** Exceptions that occur in the module.  [AzkabanError] carries its final
    message; [OtherError] stands for any exception class the module never
    names (its class name and message). *)
Inductive exn : Type :=
  | ImportError (msg : string)
  | AzkabanError (msg : string)
  | HTTPError (msg : string)
  | TypeError (msg : string)
  | KeyError (key : string)
  | OtherError (cls msg : string).

#[global] Instance exn_eq_dec : EqDecision exn.
Proof. solve_decision. Defined.

(** ** String methods used by the module *)

Module PyStr.

Definition lower_ascii (c : ascii) : ascii :=
  let n := nat_of_ascii c in
  if (65 <=? n)%nat && (n <=? 90)%nat then ascii_of_nat (n + 32) else c.

(** [s.lower()] *)
Fixpoint lower (s : string) : string :=
  match s with
  | EmptyString => EmptyString
  | String c r => String (lower_ascii c) (lower r)
  end.

(** [s.lstrip(c)] for a one-character [c] *)
Fixpoint lstrip (c : ascii) (s : string) : string :=
  match s with
  | EmptyString => EmptyString
  | String d r => if Ascii.eqb d c then lstrip c r else s
  end.

(** [s.replace(a, b)] for one-character [a] and [b] *)
Fixpoint replace (a b : ascii) (s : string) : string :=
  match s with
  | EmptyString => EmptyString
  | String d r => String (if Ascii.eqb d a then b else d) (replace a b r)
  end.

(** [c in s] for a one-character [c] *)
Fixpoint contains (c : ascii) (s : string) : bool :=
  match s with
  | EmptyString => false
  | String d r => Ascii.eqb d c || contains c r
  end.

(** [s.rsplit(c, 1)] on a string that contains [c]: the text before the
    last [c] and the text after it; [None] when [c] does not occur (Python
    then returns the one-element list [[s]]). *)
Fixpoint rsplit1 (c : ascii) (s : string) : option (string * string) :=
  match s with
  | EmptyString => None
  | String d r =>
      match rsplit1 c r with
      | Some (p, n) => Some (String d p, n)
      | None => if Ascii.eqb d c then Some (EmptyString, r) else None
      end
  end.

(** [s.split(c)] for a one-character [c]: never the empty list. *)
Fixpoint split (c : ascii) (s : string) : list string :=
  match s with
  | EmptyString => [EmptyString]
  | String d r =>
      if Ascii.eqb d c then EmptyString :: split c r
      else match split c r with
           | w :: ws => String d w :: ws
           | [] => [String d EmptyString]
           end
  end.

(** [sep.join(l)] *)
Fixpoint join (sep : string) (l : list string) : string :=
  match l with
  | [] => EmptyString
  | [x] => x
  | x :: r => x +:+ sep +:+ join sep r
  end.

(** [s.endswith(suffix)] *)
Fixpoint endswith (s suffix : string) : bool :=
  String.eqb s suffix ||
  match s with
  | EmptyString => false
  | String _ r => endswith r suffix
  end.

(** The characters [repr] treats specially. *)
Definition backslash : ascii := ascii_of_nat 92.
Definition single_quote : ascii := ascii_of_nat 39.
Definition double_quote : ascii := ascii_of_nat 34.

Definition hex_digit (n : nat) : ascii :=
  ascii_of_nat (if (n <? 10)%nat then 48 + n else 87 + n).

(** What [repr] writes for one character inside the quotes [quote]: the
    quote and the backslash behind a backslash, tab, newline and carriage
    return as their escapes, any other character outside the printable
    ASCII range as [\xhh], everything else as it is. *)
Definition escape_char (quote c : ascii) : string :=
  let n := nat_of_ascii c in
  if Ascii.eqb c quote || Ascii.eqb c backslash then String backslash (String c EmptyString)
  else if (n =? 9)%nat then String backslash "t"
  else if (n =? 10)%nat then String backslash "n"
  else if (n =? 13)%nat then String backslash "r"
  else if (n <? 32)%nat || (127 <=? n)%nat then
    String backslash
      (String "x" (String (hex_digit (n / 16)) (String (hex_digit (n mod 16)) EmptyString)))
  else String c EmptyString.

Fixpoint escape (quote : ascii) (s : string) : string :=
  match s with
  | EmptyString => EmptyString
  | String c r => escape_char quote c +:+ escape quote r
  end.

(** [repr(s)] of a [str] (Python 2, which the module is written for):
    single quotes, unless the string holds a single quote and no double
    one; the characters escaped as above. *)
Definition repr (s : string) : string :=
  let quote :=
    if contains single_quote s && negb (contains double_quote s)
    then double_quote else single_quote in
  String quote (escape quote s +:+ String quote EmptyString).





(** [str(v)], the rendering [%s] uses. *)
Definition str (v : pyval) : string :=
  match v with
  | VNone => "None"
  | VBool true => "True"
  | VBool false => "False"
  | VStr s => s
  | VList l => "[" +:+ join ", " (map repr l) +:+ "]"
  end.

(** [repr(v)], the rendering [%r] uses. *)
Definition repr_val (v : pyval) : string :=
  match v with
  | VStr s => repr s
  | _ => str v
  end.

(** [fmt % args] for a format whose only conversions are [%s] and [%r]; a
    conversion without an argument left is kept as it stands. *)
Fixpoint format (fmt : string) (args : list pyval) : string :=
  match fmt with
  | String "%" (String "s" r) =>
      match args with
      | a :: args' => str a +:+ format r args'
      | [] => String "%" (String "s" (format r []))
      end
  | String "%" (String "r" r) =>
      match args with
      | a :: args' => repr_val a +:+ format r args'
      | [] => String "%" (String "r" (format r []))
      end
  | String c r => String c (format r args)
  | EmptyString => EmptyString
  end.

(** The newline character. *)
Definition nl : string := String (ascii_of_nat 10) EmptyString.
Definition tab : string := String (ascii_of_nat 9) EmptyString.

(** [x] occurs in [s]. *)
Definition occurs_in (x s : string) : Prop :=
  exists pre post, s = pre +:+ x +:+ post.

End PyStr.

(** ** [_forward]: select and rename parsed arguments *)

(** The key under which an argument is passed on:
    ['_%s' % (k.lower().lstrip('-').replace('-', '_'), )]. *)
Definition forward_key (k : string) : string :=
  "_" +:+ PyStr.replace "-" "_" (PyStr.lstrip "-" (PyStr.lower k)).

(** [dict(pairs)]: pairs are inserted in order, a later pair overwrites an
    earlier one with the same key. *)
Definition dict_of_items {V : Type} (l : list (string * V)) : gmap string V :=
  foldl (fun m kv => <[kv.1 := kv.2]> m) ∅ l.

(** [args.items()] is [map_to_list args]: some fixed order, each key once. *)
Definition _forward (args : gmap string pyval) (names : list string)
  : gmap string pyval :=
  let names : gset string := list_to_set names in
  dict_of_items
    ((fun kv => (forward_key kv.1, kv.2)) <$>
     filter (fun kv => kv.1 ∈ names) (map_to_list args)).

(** The lists of names [main] forwards for each command. *)
Definition build_names : list string := ["ZIP"; "--url"; "--alias"; "--replace"; "--create"].
Definition log_names : list string := ["EXECUTION"; "JOB"; "--url"; "--alias"].
Definition info_names : list string := ["--files"; "--options"; "JOB"; "--include-properties"].
Definition run_names : list string :=
  ["WORKFLOW"; "JOB"; "--skip"; "--url"; "--alias"; "--kill"; "--email"].
Definition upload_names : list string := ["ZIP"; "--create"; "--url"; "--alias"].

(** ** Outcomes: a Python call returns a value or raises *)

Inductive outcome (A : Type) : Type :=
  | Return (a : A)
  | Raise (e : exn).
Arguments Return {A} a.
Arguments Raise {A} e.

(** [AzkabanError(message, *args)].

    Modelled from the spec: the class is defined in [azkaban.util], which is
    not among the sources.  Every call site of this module passes a
    [%]-format and its arguments, and the specification requires the
    message to name them, so the stored message is [message % args]. *)
Definition azkaban_error (message : string) (args : list pyval) : exn :=
  AzkabanError (PyStr.format message args).

(** ** Projects *)

Module Job.
Record t : Type := { options : gmap string string }.

(** [opts.get(o, '')] *)
Definition get (j : t) (o : string) : string := default EmptyString (options j !! o).
End Job.

Module Project.
Record t : Type := {
  name : string;
  versioned_name : string;
  jobs : gmap string Job.t;
  files : list (string * string);
}.
End Project.

(** ** Resolution of the [--project] argument *)

Section Resolver.

(** [Project.load(path, name=None)]: the loader of [azkaban.project]. *)
Variable load : string -> option string -> outcome Project.t.

(** The persisted option [project] of section [azkaban], if any. *)
Variable config_project : option string.

(** [Config().get_option('azkaban', 'project', 'jobs')] *)
Definition get_option_project : string := default "jobs" config_project.

(** [_project or Config().get_option(...)]: [None] and the empty string
    are both falsy. *)
Definition effective_reference (_project : option string) : string :=
  match _project with
  | Some s => if String.eqb s EmptyString then get_option_project else s
  | None => get_option_project
  end.

Definition _parse_project (_project : option string) (require_project : bool)
  : outcome (string * option Project.t) :=
  let _project := effective_reference _project in
  if PyStr.contains ":" _project then
    match PyStr.rsplit1 ":" _project with
    | Some (path, name) =>
        match load path (Some name) with
        | Return project => Return (name, Some project)
        | Raise e => Raise e
        end
    | None =>
        (* unpacking a one-element list; not reachable under the test above *)
        Raise (OtherError "ValueError" "need more than 1 value to unpack")
    end
  else
    match load _project None with
    | Return project => Return (Project.name project, Some project)
    | Raise (ImportError msg) =>
        if negb require_project then Return (_project, None)
        else Raise (ImportError msg)
    | Raise e => Raise e
    end.

Definition _get_project_name (_project : option string) : outcome string :=
  match _parse_project _project false with
  | Return (name, _) => Return name
  | Raise e => Raise e
  end.

Definition project_required_message : string :=
  "This command requires a project configuration module which was not found."
  +:+ PyStr.nl +:+
  "You can specify another location using the `--project` option.".

Definition _load_project (_project : option string) : outcome (option Project.t) :=
  match _parse_project _project true with
  | Raise (ImportError _) => Raise (azkaban_error project_required_message [])
  | Raise e => Raise e
  | Return (name, project) => Return project
  end.

End Resolver.

(** ** The remote service

    [azkaban.remote] is not among the sources.  A server is any family of
    answers over a state [R] of its own; each answer returns the next state
    and either a value or an exception. *)

Module Remote.

Record upload_result : Type := { projectId : string; version : string }.

Record session : Type := { url : string }.

(** The requests a [Session] (or an [Execution]) sends. *)
Inductive call : Type :=
  | Upload (name path : string) (archive_name : option string)
  | Create (name description : string)
  | Run (name flow : string) (jobs : list string) (concurrent : bool)
        (on_failure : string) (emails : option (list string))
  | JobLogs (execution job : string)
  | Logs (execution : string).

#[global] Instance call_eq_dec : EqDecision call.
Proof. solve_decision. Defined.

Record server (R : Type) : Type := {
  (** [Session(url, alias)] *)
  connect : option string -> option string -> R -> R * outcome session;
  (** [session.upload_project(name, path, archive_name, callback)] *)
  upload : string -> string -> option string -> R -> R * outcome upload_result;
  (** [session.create_project(name, description)] *)
  create : string -> string -> R -> R * outcome unit;
  (** [session.run_workflow(name, flow, jobs, concurrent, on_failure, emails)],
      answering the execution id *)
  run : string -> string -> list string -> bool -> string ->
        option (list string) -> R -> R * outcome string;
  (** [Execution.logs()] and [Execution.job_logs(job)]: the lines the
      generator yields and the exception that ends it, if any *)
  logs : string -> option string -> R -> R * (list string * option exn);
}.
Arguments connect {R} _ _ _ _.
Arguments upload {R} _ _ _ _ _.
Arguments create {R} _ _ _ _.
Arguments run {R} _ _ _ _ _ _ _ _.
Arguments logs {R} _ _ _ _.

Definition is_upload (c : call) : bool :=
  match c with Upload _ _ _ => true | _ => false end.
Definition is_create (c : call) : bool :=
  match c with Create _ _ => true | _ => false end.

(** Number of upload and of create-project requests in a log. *)
Definition uploads (l : list call) : nat := length (filter (fun c => is_upload c = true) l).
Definition creates (l : list call) : nat := length (filter (fun c => is_create c = true) l).

End Remote.

(** What the process sees of the machine it runs on, and the pieces of
    [azkaban.project] and [azkaban.util] the commands call. *)
Record local_env : Type := {
  (** [osp.isdir] *)
  isdir : string -> bool;
  (** [osp.join] *)
  path_join : string -> string -> string;
  (** [osp.relpath] *)
  relpath : string -> string;
  (** the path [temppath()] yields *)
  temppath : string;
  (** [human_readable(osp.getsize(path))] *)
  readable_size : string -> string;
  (** [project.build(path, overwrite)] *)
  project_build : Project.t -> string -> bool -> outcome unit;
  (** [str(project)] *)
  project_str : Project.t -> string;
  (** what [write_properties(flatten(project.properties), header)] writes *)
  properties_text : Project.t -> string -> list string;
  (** what [job.build(header=header)] writes *)
  job_text : Job.t -> string -> list string;
}.

(** The state of one invocation: the remote, the requests sent to it so
    far, and what was written to standard output. *)
Record world (R : Type) : Type := World {
  remote : R;
  calls : list Remote.call;
  stdout : list string;
}.
Arguments World {R} _ _ _.
Arguments remote {R} _.
Arguments calls {R} _.
Arguments stdout {R} _.

(** ** Computations over the world *)

(** A command that always terminates. *)
Definition M (R A : Type) : Type := world R -> world R * outcome A.

(** A command with a [while True] loop, run with a bound on the number of
    iterations: [None] when the bound is reached. *)
Definition F (R A : Type) : Type := world R -> option (world R * outcome A).

#[global] Instance M_ret {R} : MRet (M R) := fun A a w => (w, Return a).
#[global] Instance M_bind {R} : MBind (M R) := fun A B k m w =>
  match m w with
  | (w', Return a) => k a w'
  | (w', Raise e) => (w', Raise e)
  end.

#[global] Instance F_ret {R} : MRet (F R) := fun A a w => Some (w, Return a).
#[global] Instance F_bind {R} : MBind (F R) := fun A B k m w =>
  match m w with
  | Some (w', Return a) => k a w'
  | Some (w', Raise e) => Some (w', Raise e)
  | None => None
  end.

Definition raise {R A} (e : exn) : M R A := fun w => (w, Raise e).
Definition of_outcome {R A} (o : outcome A) : M R A := fun w => (w, o).
Definition total {R A} (m : M R A) : F R A := fun w => Some (m w).

(** [sys.stdout.write(s)] *)
Definition write {R} (s : string) : M R unit :=
  fun w => (World (remote w) (calls w) (stdout w ++ [s]), Return tt).

Definition write_all {R} (l : list string) : M R unit :=
  fun w => (World (remote w) (calls w) (stdout w ++ l), Return tt).

(** ** [sorted] *)

(** The order of [str]: character codes, left to right. *)
Definition str_le (a b : string) : Prop := String.leb a b = true.

#[global] Instance str_le_dec : RelDecision str_le :=
  fun a b => decide (String.leb a b = true).

(** The order of 2-tuples of [str]: first components, then second ones. *)
Definition pair_leb (a b : string * string) : bool :=
  match String.compare a.1 b.1 with
  | Lt => true
  | Eq => String.leb a.2 b.2
  | Gt => false
  end.

Definition pair_le (a b : string * string) : Prop := pair_leb a b = true.

#[global] Instance pair_le_dec : RelDecision pair_le :=
  fun a b => decide (pair_leb a b = true).

(** The order [sorted] uses on the items of a dictionary keyed by [str]:
    keys differ, so the comparison of two items is settled by the keys. *)
Definition item_le {V : Type} (a b : string * V) : Prop := str_le a.1 b.1.

#[global] Instance item_le_dec {V} : RelDecision (@item_le V) :=
  fun a b => decide (String.leb a.1 b.1 = true).

(** [sorted(d)] for a dictionary [d]: its keys, in order. *)
Definition sorted_keys {V : Type} (d : gmap string V) : list string :=
  merge_sort str_le (map_to_list d).*1.

(** [sorted(d.items())] *)
Definition sorted_items {V : Type} (d : gmap string V) : list (string * V) :=
  merge_sort item_le (map_to_list d).

(** [sorted(l)] for a list of 2-tuples *)
Definition sorted_pairs (l : list (string * string)) : list (string * string) :=
  merge_sort pair_le l.

(** ** The commands *)

Section Commands.

Context {R : Type}.
Variable srv : Remote.server R.
Variable env : local_env.

(** *** Requests *)

Definition Session (_url _alias : option string) : M R Remote.session :=
  fun w =>
    let '(r, o) := Remote.connect srv _url _alias (remote w) in
    (World r (calls w) (stdout w), o).

(** The progress callback [_upload_callback] only writes a percentage and
    a carriage return to the terminal while the request is under way;
    those writes are left out of [stdout]. *)
Definition session_upload_project (name path : string) (archive_name : option string)
  : M R Remote.upload_result :=
  fun w =>
    let '(r, o) := Remote.upload srv name path archive_name (remote w) in
    (World r (calls w ++ [Remote.Upload name path archive_name]) (stdout w), o).

Definition session_create_project (name description : string) : M R unit :=
  fun w =>
    let '(r, o) := Remote.create srv name description (remote w) in
    (World r (calls w ++ [Remote.Create name description]) (stdout w), o).

Definition session_run_workflow (name flow : string) (jobs : list string)
    (concurrent : bool) (on_failure : string) (emails : option (list string))
  : M R string :=
  fun w =>
    let '(r, o) := Remote.run srv name flow jobs concurrent on_failure emails (remote w) in
    (World r (calls w ++ [Remote.Run name flow jobs concurrent on_failure emails])
           (stdout w), o).

(** *** [view_log] *)

(** The [try] block of [view_log].  [logs] is a generator: the requests
    are sent while the [for] loop, inside the [try], pulls lines out of it. *)
Definition write_logs (_execution : string) (_job : list string) : M R unit :=
  fun w =>
    let request :=
      match _job with
      | job :: _ => Remote.JobLogs _execution job
      | [] => Remote.Logs _execution
      end in
    let '(r, (lines, err)) := Remote.logs srv _execution (head _job) (remote w) in
    let w' := World r (calls w ++ [request])
                    (stdout w ++ ((fun line => line +:+ PyStr.nl) <$> lines)) in
    match err with
    | None => (w', Return tt)
    | Some (HTTPError _) =>
        match _job with
        | _ :: _ =>
            (w', Raise (azkaban_error "Execution %s and/or job %s not found."
                                      [VStr _execution; VList _job]))
        | [] =>
            (w', Raise (azkaban_error "Execution %s not found." [VStr _execution]))
        end
    | Some e => (w', Raise e)
    end.

Definition view_log (_execution : string) (_job : list string)
    (_url _alias : option string) : M R unit :=
  session ← Session _url _alias;
  write_logs _execution _job.

(** *** [run_flow] *)

Definition run_flow (project_name _workflow : string) (_job : list string)
    (_url _alias : option string) (_skip _kill : bool) (_emails : option string)
  : M R unit :=
  session ← Session _url _alias;
  exec_id ← session_run_workflow
    project_name
    _workflow
    _job
    (negb _skip)
    (if _kill then "cancel" else "finish")
    (match _emails with
     | Some e => if String.eqb e EmptyString then None else Some (PyStr.split "," e)
     | None => None
     end);
  let job_names :=
    match _job with
    | _ :: _ => PyStr.format ", jobs: %s" [VStr (PyStr.join ", " _job)]
    | [] => EmptyString
    end in
  write (PyStr.format
    ("Flow %s successfully submitted (execution id: %s%s)." +:+ PyStr.nl +:+
     "Details at %s/executor?execid=%s" +:+ PyStr.nl)
    [VStr _workflow; VStr exec_id; VStr job_names;
     VStr (Remote.url session); VStr exec_id]).

(** *** [upload_project] *)

(** The [while True] loop of [upload_project]; [fuel] bounds the number of
    iterations. *)
Fixpoint upload_project_loop (fuel : nat) (project_name _zip : string)
    (_create : bool) : F R Remote.upload_result :=
  fun w =>
    match fuel with
    | O => None
    | S fuel' =>
        match session_upload_project project_name _zip None w with
        | (w1, Return res) => Some (w1, Return res)
        | (w1, Raise (AzkabanError msg)) =>
            if _create then
              match session_create_project project_name project_name w1 with
              | (w2, Return _) => upload_project_loop fuel' project_name _zip _create w2
              | (w2, Raise e) => Some (w2, Raise e)
              end
            else Some (w1, Raise (AzkabanError msg))
        | (w1, Raise e) => Some (w1, Raise e)
        end
    end.

(** The text [upload_project] writes once the loop is left. *)
Definition upload_report (project_name _zip : string) (session : Remote.session)
    (res : Remote.upload_result) : string :=
  PyStr.format
    ("Project %s successfully uploaded (id: %s, size: %s, version: %s)." +:+ PyStr.nl +:+
     "Details at %s/manager?project=%s" +:+ PyStr.nl)
    [VStr project_name; VStr (Remote.projectId res);
     VStr (readable_size env _zip); VStr (Remote.version res);
     VStr (Remote.url session); VStr project_name].

Definition upload_project (fuel : nat) (project_name _zip : string)
    (_url _alias : option string) (_create : bool) : F R unit :=
  session ← total (Session _url _alias);
  res ← upload_project_loop fuel project_name _zip _create;
  total (write (upload_report project_name _zip session res)).

(** *** [build_project] *)

(** The [while True] loop of [build_project]. *)
Fixpoint build_project_loop (fuel : nat) (name _zip archive_name : string)
    (_create : bool) : F R Remote.upload_result :=
  fun w =>
    match fuel with
    | O => None
    | S fuel' =>
        match session_upload_project name _zip (Some archive_name) w with
        | (w1, Return res) => Some (w1, Return res)
        | (w1, Raise (AzkabanError msg)) =>
            if _create && PyStr.endswith msg "doesn't exist." then
              match session_create_project name name w1 with
              | (w2, Return _) => build_project_loop fuel' name _zip archive_name _create w2
              | (w2, Raise e) => Some (w2, Raise e)
              end
            else Some (w1, Raise (AzkabanError msg))
        | (w1, Raise e) => Some (w1, Raise e)
        end
    end.

Definition build_project (fuel : nat) (project : Project.t) (_zip : option string)
    (_url _alias : option string) (_replace _create : bool) : F R unit :=
  match _zip with
  | Some (String c z) =>
      let _zip := String c z in
      let _zip :=
        if isdir env _zip
        then path_join env _zip
               (PyStr.format "%s.zip" [VStr (Project.versioned_name project)])
        else _zip in
      _ ← total (of_outcome (project_build env project _zip _replace));
      total (write (PyStr.format
        ("Project %s successfully built and saved as %r (size: %s)." +:+ PyStr.nl)
        [VStr (project_str env project); VStr _zip; VStr (readable_size env _zip)]))
  | _ =>
      let _zip := temppath env in
      _ ← total (of_outcome (project_build env project _zip false));
      let archive_name :=
        PyStr.format "%s.zip" [VStr (Project.versioned_name project)] in
      session ← total (Session _url _alias);
      res ← build_project_loop fuel (Project.name project) _zip archive_name _create;
      total (write (PyStr.format
        ("Project %s successfully built and uploaded " +:+
         "(id: %s, size: %s, upload: %s)." +:+ PyStr.nl +:+
         "Details at %s/manager?project=%s" +:+ PyStr.nl)
        [VStr (project_str env project); VStr (Remote.projectId res);
         VStr (readable_size env _zip); VStr (Remote.version res);
         VStr (Remote.url session); VStr (project_str env project)]))
  end.

(** *** [view_info] *)

(** [for name in _job: project.jobs[name].build(header='%s.job' % (name, ))] *)
Fixpoint build_jobs (project : Project.t) (_job : list string) : M R unit :=
  match _job with
  | [] => mret tt
  | name :: rest =>
      match Project.jobs project !! name with
      | Some job =>
          _ ← write_all (job_text env job (PyStr.format "%s.job" [VStr name]));
          build_jobs project rest
      | None => raise (KeyError name)
      end
  end.

Definition file_line (entry : string * string) : string :=
  PyStr.format ("%s" +:+ PyStr.tab +:+ "%s" +:+ PyStr.nl)
               [VStr (relpath env entry.1); VStr entry.2].

Definition job_options_line (option_names : list string) (item : string * Job.t)
  : string :=
  let job_opts := PyStr.join PyStr.tab (Job.get item.2 <$> option_names) in
  PyStr.format ("%s" +:+ PyStr.tab +:+ "%s" +:+ PyStr.nl) [VStr item.1; VStr job_opts].

Definition job_name_line (name : string) : string :=
  PyStr.format ("%s" +:+ PyStr.nl) [VStr name].

Definition view_info (project : Project.t) (_files : bool) (_options : option string)
    (_job : list string) (_include_properties : bool) : M R unit :=
  match _job with
  | _ :: _ =>
      _ ← (if _include_properties
           then write_all (properties_text env project "project.properties")
           else mret tt);
      build_jobs project _job
  | [] =>
      if _files then
        write_all (file_line <$> sorted_pairs (Project.files project))
      else
        match _options with
        | Some (String c o) =>
            let option_names := PyStr.split "," (String c o) in
            write_all (job_options_line option_names <$>
                       sorted_items (Project.jobs project))
        | _ =>
            write_all (job_name_line <$> sorted_keys (Project.jobs project))
        end
  end.

End Commands.

(** ** [main]: dispatch on the parsed arguments *)

(** [args[k]] *)
Definition getitem (args : gmap string pyval) (k : string) : outcome pyval :=
  match args !! k with
  | Some v => Return v
  | None => Raise (KeyError k)
  end.

(** A call [f(positional..., **kw)] binds the keywords to the remaining
    parameters [params] of [f]: a keyword that is no parameter and a
    parameter left without a value are both a [TypeError], raised before the
    body of [f] runs (none of these functions has a default value). *)
Definition bind_keywords (f : string) (params : list string)
    (kw : gmap string pyval) : outcome unit :=
  match filter (fun k => k ∉ params) (map_to_list kw).*1 with
  | k :: _ =>
      Raise (TypeError (PyStr.format "%s() got an unexpected keyword argument %r"
                                     [VStr f; VStr k]))
  | [] =>
      match filter (fun p => kw !! p = None) params with
      | p :: _ =>
          Raise (TypeError (PyStr.format "%s() is given no value for %r"
                                         [VStr f; VStr p]))
      | [] => Return tt
      end
  end.

(** The value bound to a parameter, at the type [docopt] gives it. *)
Definition kw_flag (kw : gmap string pyval) (p : string) : bool :=
  truthy (default VNone (kw !! p)).
Definition kw_text (kw : gmap string pyval) (p : string) : option string :=
  match kw !! p with Some (VStr s) => Some s | _ => None end.
Definition kw_string (kw : gmap string pyval) (p : string) : string :=
  match kw !! p with Some v => PyStr.str v | None => EmptyString end.
Definition kw_list (kw : gmap string pyval) (p : string) : list string :=
  match kw !! p with Some (VList l) => l | _ => [] end.

Definition text_of (v : pyval) : option string :=
  match v with VStr s => Some s | _ => None end.

Section Main.

Context {R : Type}.
Variable srv : Remote.server R.
Variable env : local_env.
Variable load : string -> option string -> outcome Project.t.
Variable config_project : option string.
(** [handler.baseFilename] of the log file handler, when there is one. *)
Variable handler : option string.

(** The project a command works on; [None] has no attribute to read. *)
Definition the_project (p : option Project.t) : outcome Project.t :=
  match p with
  | Some project => Return project
  | None => Raise (OtherError "AttributeError" "'NoneType' object has no attribute")
  end.

Definition call_build_project (fuel : nat) (project : option Project.t)
    (kw : gmap string pyval) : F R unit :=
  _ ← total (of_outcome
        (bind_keywords "build_project" ["_zip"; "_url"; "_alias"; "_replace"; "_create"] kw));
  project ← total (of_outcome (the_project project));
  build_project srv env fuel project (kw_text kw "_zip") (kw_text kw "_url")
                (kw_text kw "_alias") (kw_flag kw "_replace") (kw_flag kw "_create").

Definition call_view_log (kw : gmap string pyval) : M R unit :=
  _ ← of_outcome (bind_keywords "view_log" ["_execution"; "_job"; "_url"; "_alias"] kw);
  view_log srv (kw_string kw "_execution") (kw_list kw "_job")
           (kw_text kw "_url") (kw_text kw "_alias").

Definition call_view_info (project : option Project.t) (kw : gmap string pyval)
  : M R unit :=
  _ ← of_outcome
        (bind_keywords "view_info" ["_files"; "_options"; "_job"; "_include_properties"] kw);
  project ← of_outcome (the_project project);
  view_info env project (kw_flag kw "_files") (kw_text kw "_options")
            (kw_list kw "_job") (kw_flag kw "_include_properties").

Definition call_run_flow (project_name : string) (kw : gmap string pyval) : M R unit :=
  _ ← of_outcome
        (bind_keywords "run_flow"
           ["_workflow"; "_job"; "_url"; "_alias"; "_skip"; "_kill"; "_emails"] kw);
  run_flow srv project_name (kw_string kw "_workflow") (kw_list kw "_job")
           (kw_text kw "_url") (kw_text kw "_alias")
           (kw_flag kw "_skip") (kw_flag kw "_kill") (kw_text kw "_emails").

Definition call_upload_project (fuel : nat) (project_name : string)
    (kw : gmap string pyval) : F R unit :=
  _ ← total (of_outcome
        (bind_keywords "upload_project" ["_zip"; "_url"; "_alias"; "_create"] kw));
  upload_project srv env fuel project_name (kw_string kw "_zip")
                 (kw_text kw "_url") (kw_text kw "_alias") (kw_flag kw "_create").

(** The body of [main], after [docopt] has produced [args].  The [catch]
    decorator, which turns an [AzkabanError] into a message and exit
    code 1, is outside of it. *)
Definition main (fuel : nat) (args : gmap string pyval) : F R unit :=
  log_flag ← total (of_outcome (getitem args "--log"));
  if truthy log_flag then
    match handler with
    | Some baseFilename => total (write (PyStr.format ("%s" +:+ PyStr.nl) [VStr baseFilename]))
    | None => total (raise (azkaban_error "No log file active." []))
    end
  else
  build ← total (of_outcome (getitem args "build"));
  if truthy build then
    _project ← total (of_outcome (getitem args "--project"));
    project ← total (of_outcome (_load_project load config_project (text_of _project)));
    call_build_project fuel project (_forward args build_names)
  else
  log ← total (of_outcome (getitem args "log"));
  if truthy log then
    total (call_view_log (_forward args log_names))
  else
  info ← total (of_outcome (getitem args "info"));
  if truthy info then
    _project ← total (of_outcome (getitem args "--project"));
    project ← total (of_outcome (_load_project load config_project (text_of _project)));
    total (call_view_info project (_forward args info_names))
  else
  run ← total (of_outcome (getitem args "run"));
  if truthy run then
    _project ← total (of_outcome (getitem args "--project"));
    project_name ← total (of_outcome (_get_project_name load config_project (text_of _project)));
    total (call_run_flow project_name (_forward args run_names))
  else
  upload ← total (of_outcome (getitem args "upload"));
  if truthy upload then
    _project ← total (of_outcome (getitem args "--project"));
    project_name ← total (of_outcome (_get_project_name load config_project (text_of _project)));
    call_upload_project fuel project_name (_forward args upload_names)
  else mret tt.

End Main.

(** ** What the claims about [_forward] say *)

(** The entries of [args] that [_forward] selects, by key. *)
Definition selected_keys (args : gmap string pyval) (names : list string) : list string :=
  (filter (fun kv : string * pyval => kv.1 ∈ (list_to_set names : gset string))
          (map_to_list args)).*1.

(** [res] holds exactly the entries of [args] whose key is in [names], each
    under its renamed key. *)
Definition forwards_exactly (args : gmap string pyval) (names : list string)
    (res : gmap string pyval) : Prop :=
  forall k' v,
    res !! k' = Some v <->
    exists k, k ∈ names /\ args !! k = Some v /\ k' = forward_key k.

(** ** Concrete inputs *)

(** What [docopt] returns for [azkaban run -k -e a@x,b@y etl]. *)
Definition run_args : gmap string pyval :=
  list_to_map
    [("build", VBool false); ("info", VBool false); ("log", VBool false);
     ("run", VBool true); ("upload", VBool false);
     ("EXECUTION", VNone); ("JOB", VList []); ("WORKFLOW", VStr "etl");
     ("ZIP", VNone);
     ("--alias", VNone); ("--create", VBool false); ("--emails", VStr "a@x,b@y");
     ("--files", VBool false); ("--help", VBool false);
     ("--include-properties", VBool false); ("--kill", VBool true);
     ("--log", VBool false); ("--options", VNone); ("--project", VStr "warehouse");
     ("--replace", VBool false); ("--skip", VBool false);
     ("--url", VStr "http://azkaban.server"); ("--version", VBool false)].

(** Two of its keys that are renamed alike. *)
Definition log_args : gmap string pyval :=
  list_to_map [("log", VBool true); ("--log", VBool false)].

(** A project with three jobs and two files. *)
Definition warehouse : Project.t :=
  {| Project.name := "warehouse";
     Project.versioned_name := "warehouse-1.2";
     Project.jobs :=
       list_to_map
         [("report", {| Job.options := list_to_map [("type", "command"); ("retries", "2")] |});
          ("etl", {| Job.options := list_to_map [("type", "pig")] |});
          ("cleanup", {| Job.options := list_to_map [("type", "command")] |})];
     Project.files := [("/srv/q/b.sql", "sql/b.sql"); ("/srv/q/a.sql", "sql/z.sql")] |}.

(** A loader that knows one module, [flows/jobs.py] (also reachable under a
    path with a colon in it). *)
Definition demo_load (path : string) (name : option string) : outcome Project.t :=
  if String.eqb path "flows/jobs.py" || String.eqb path "c:/flows/jobs.py"
  then Return warehouse
  else Raise (ImportError ("No module named " +:+ path)).

(** ** The two upload loops have one shape

    [upload_project] creates the project after any [AzkabanError] when
    [--create] is given; [build_project] only after one whose message ends
    with [doesn't exist.].  [retry_loop] is that shape, with the test on the
    message as a parameter. *)

Section RetryLoop.

Context {R : Type}.
Variable srv : Remote.server R.

Fixpoint retry_loop (create_after : string -> bool) (fuel : nat)
    (name _zip : string) (archive_name : option string)
  : F R Remote.upload_result :=
  fun w =>
    match fuel with
    | O => None
    | S fuel' =>
        match session_upload_project srv name _zip archive_name w with
        | (w1, Return res) => Some (w1, Return res)
        | (w1, Raise (AzkabanError msg)) =>
            if create_after msg then
              match session_create_project srv name name w1 with
              | (w2, Return _) =>
                  retry_loop create_after fuel' name _zip archive_name w2
              | (w2, Raise e) => Some (w2, Raise e)
              end
            else Some (w1, Raise (AzkabanError msg))
        | (w1, Raise e) => Some (w1, Raise e)
        end
    end.

(** The claim that an upload with [--create] sends at most two upload
    requests, whatever the remote answers. *)
Definition at_most_two_uploads (env : local_env) (name _zip : string)
    (_url _alias : option string) (w : world R) : Prop :=
  forall fuel w' o,
    upload_project srv env fuel name _zip _url _alias true w = Some (w', o) ->
    Remote.uploads (calls w') <= Remote.uploads (calls w) + 2.

End RetryLoop.

(** The error message of the remote for a project it does not know. *)
Definition missing_message (name : string) : string :=
  PyStr.format "Project '%s' doesn't exist." [VStr name].

(** ** Concrete remotes *)

Definition demo_session : Remote.session := {| Remote.url := "http://azkaban.server" |}.
Definition demo_upload : Remote.upload_result :=
  {| Remote.projectId := "7"; Remote.version := "1" |}.

(** A remote whose state is the number of uploads it will still refuse
    because the project is missing; creating a project does not change it.
    Its log requests fail with status 500. *)
Definition flaky_server : Remote.server nat :=
  {| Remote.connect := fun _ _ n => (n, Return demo_session);
     Remote.upload := fun name _ _ n =>
       match n with
       | S k => (k, Raise (AzkabanError (missing_message name)))
       | O => (O, Return demo_upload)
       end;
     Remote.create := fun _ _ n => (n, Return tt);
     Remote.run := fun _ _ _ _ _ _ n => (n, Return "42");
     Remote.logs := fun _ _ n =>
       (n, (["starting"], Some (HTTPError "500 Server Error"))) |}.

(** A remote that never gets to know the project. *)
Definition stubborn_server : Remote.server unit :=
  {| Remote.connect := fun _ _ u => (u, Return demo_session);
     Remote.upload := fun name _ _ u => (u, Raise (AzkabanError (missing_message name)));
     Remote.create := fun _ _ u => (u, Return tt);
     Remote.run := fun _ _ _ _ _ _ u => (u, Return "42");
     Remote.logs := fun _ _ u => (u, ([], None)) |}.

(** A remote on which the project exists and the user may not write to it. *)
Definition denying_server : Remote.server unit :=
  {| Remote.connect := fun _ _ u => (u, Return demo_session);
     Remote.upload := fun _ _ _ u =>
       (u, Raise (AzkabanError "Permission denied. Need WRITE access."));
     Remote.create := fun _ _ u => (u, Raise (AzkabanError "Project already exists."));
     Remote.run := fun _ _ _ _ _ _ u => (u, Return "42");
     Remote.logs := fun _ _ u => (u, ([], None)) |}.

Definition demo_env : local_env :=
  {| isdir := fun _ => false;
     path_join := fun a b => a +:+ "/" +:+ b;
     relpath := fun p => p;
     temppath := "/tmp/azkaban.zip";
     readable_size := fun _ => "1.5kB";
     project_build := fun _ _ _ => Return tt;
     project_str := Project.name;
     properties_text := fun _ header => ["# " +:+ header +:+ PyStr.nl];
     job_text := fun _ header => ["# " +:+ header +:+ PyStr.nl] |}.

(** The state in which an invocation starts. *)
Definition start {R : Type} (r : R) : world R := World r [] [].

(** [k] rounds of an upload followed by a create-project request. *)
Fixpoint rounds (k : nat) (upload create : Remote.call) : list Remote.call :=
  match k with
  | O => []
  | S k' => upload :: create :: rounds k' upload create
  end.


(** The text [view_info] writes for a job argument that names a job of the
    project: what [job.build(header='<name>.job')] writes. *)
Definition job_lines (env : local_env) (project : Project.t) (name : string)
  : list string :=
  match Project.jobs project !! name with
  | Some job => job_text env job (name +:+ ".job")
  | None => []
  end.


(** A remote whose log requests give two lines and end normally, and that
    refuses to open a session under the alias [nobody]. *)
Definition quiet_server : Remote.server unit :=
  {| Remote.connect := fun _ alias u =>
       match alias with
       | Some "nobody" => (u, Raise (AzkabanError "Alias nobody not found."))
       | _ => (u, Return demo_session)
       end;
     Remote.upload := fun _ _ _ u => (u, Return demo_upload);
     Remote.create := fun _ _ u => (u, Return tt);
     Remote.run := fun _ _ _ _ _ _ u => (u, Return "42");
     Remote.logs := fun _ _ u => (u, (["first"; "second"], None)) |}.

(** What [docopt] returns for [azkaban upload -c -u http://azkaban.server w.zip]. *)
Definition upload_args : gmap string pyval :=
  list_to_map
    [("build", VBool false); ("info", VBool false); ("log", VBool false);
     ("run", VBool false); ("upload", VBool true);
     ("EXECUTION", VNone); ("JOB", VList []); ("WORKFLOW", VNone);
     ("ZIP", VStr "w.zip");
     ("--alias", VNone); ("--create", VBool true); ("--emails", VNone);
     ("--files", VBool false); ("--help", VBool false);
     ("--include-properties", VBool false); ("--kill", VBool false);
     ("--log", VBool false); ("--options", VNone); ("--project", VStr "warehouse");
     ("--replace", VBool false); ("--skip", VBool false);
     ("--url", VStr "http://azkaban.server"); ("--version", VBool false)].

(** What [docopt] returns for [azkaban log -a prod 12 etl]. *)
Definition log_command_args : gmap string pyval :=
  list_to_map
    [("build", VBool false); ("info", VBool false); ("log", VBool true);
     ("run", VBool false); ("upload", VBool false);
     ("EXECUTION", VStr "12"); ("JOB", VList ["etl"]); ("WORKFLOW", VNone);
     ("ZIP", VNone);
     ("--alias", VStr "prod"); ("--create", VBool false); ("--emails", VNone);
     ("--files", VBool false); ("--help", VBool false);
     ("--include-properties", VBool false); ("--kill", VBool false);
     ("--log", VBool false); ("--options", VNone); ("--project", VNone);
     ("--replace", VBool false); ("--skip", VBool false);
     ("--url", VNone); ("--version", VBool false)].




(** * Properties *)

(** ** Sanity checks of the string methods *)

Example forward_key_ex1 : forward_key "--include-properties" = "_include_properties".
Proof. reflexivity. Qed.
Example forward_key_ex2 : forward_key "WORKFLOW" = "_workflow".
Proof. reflexivity. Qed.
Example rsplit1_ex : PyStr.rsplit1 ":" "a:b/c:name" = Some ("a:b/c", "name").
Proof. reflexivity. Qed.
Example split_ex : PyStr.split "," "a@x,b@y" = ["a@x"; "b@y"].
Proof. reflexivity. Qed.
Example format_ex :
  PyStr.format "Execution %s and/or job %s not found." [VStr "12"; VList ["etl"]]
  = "Execution 12 and/or job ['etl'] not found.".
Proof. reflexivity. Qed.
Example endswith_ex : PyStr.endswith "Project 'p' doesn't exist." "doesn't exist." = true.
Proof. reflexivity. Qed.
Example forward_ex :
  _forward (<["--emails" := VStr "a@x"]> (<["--kill" := VBool true]> ∅)) run_names
  = <["_kill" := VBool true]> ∅.
Proof. vm_compute. reflexivity. Qed.


(** ** [_forward] *)

Section Forward.

Context {V : Type}.
Implicit Types l : list (string * V).

Lemma dict_of_items_snoc l kv :
  dict_of_items (l ++ [kv]) = <[kv.1 := kv.2]> (dict_of_items l).
Proof. unfold dict_of_items. by rewrite foldl_app. Qed.

(** [dict] reads its pairs from the left, [list_to_map] from the right. *)
Lemma dict_of_items_reverse l : dict_of_items l = list_to_map (reverse l).
Proof.
  induction l as [|kv l IH] using rev_ind; [done|].
  rewrite dict_of_items_snoc, reverse_app, IH. by destruct kv.
Qed.

Lemma dict_of_items_lookup_Some l k v :
  dict_of_items l !! k = Some v -> (k, v) ∈ l.
Proof.
  rewrite dict_of_items_reverse. intros Hk.
  apply elem_of_list_to_map_2 in Hk. by rewrite elem_of_reverse in Hk.
Qed.

Lemma dict_of_items_lookup_NoDup l k v :
  NoDup l.*1 -> (k, v) ∈ l -> dict_of_items l !! k = Some v.
Proof.
  intros Hnd Hin. rewrite dict_of_items_reverse.
  apply elem_of_list_to_map_1.
  - by rewrite fmap_reverse, reverse_Permutation.
  - by rewrite elem_of_reverse.
Qed.

End Forward.

Lemma forward_items_keys (items : list (string * pyval)) :
  ((fun kv : string * pyval => (forward_key kv.1, kv.2)) <$> items).*1
  = forward_key <$> items.*1.
Proof. rewrite <- !list_fmap_compose. by apply list_fmap_ext. Qed.

(** Every forwarded entry is an entry of [args] whose key was asked for. *)
Lemma forward_sound (args : gmap string pyval) (names : list string) k' v :
  _forward args names !! k' = Some v ->
  exists k, k ∈ names /\ args !! k = Some v /\ k' = forward_key k.
Proof.
  unfold _forward. intros Hk.
  apply dict_of_items_lookup_Some in Hk.
  apply list_elem_of_fmap in Hk as ([k w] & Heq & Hin).
  apply list_elem_of_filter in Hin as [Hsel Hin].
  simpl in *. injection Heq as -> ->.
  exists k. split_and!; [|by apply elem_of_map_to_list|done].
  by apply elem_of_list_to_set in Hsel.
Qed.

Lemma forward_complete (args : gmap string pyval) (names : list string) k v :
  NoDup (forward_key <$> selected_keys args names) ->
  k ∈ names -> args !! k = Some v ->
  _forward args names !! forward_key k = Some v.
Proof.
  unfold _forward, selected_keys. intros Hnd Hk Hv.
  apply dict_of_items_lookup_NoDup.
  - by rewrite forward_items_keys.
  - apply list_elem_of_fmap. exists (k, v). split; [done|].
    apply list_elem_of_filter. split.
    + simpl. by apply elem_of_list_to_set.
    + by apply elem_of_map_to_list.
Qed.

(** No name that [main] forwards for [run] is renamed to [_emails]. *)
Lemma forward_run_no_emails (args : gmap string pyval) :
  _forward args run_names !! "_emails" = None.
Proof.
  destruct (_forward args run_names !! "_emails") as [v|] eqn:E; [|done].
  apply forward_sound in E as (k & Hk & _ & Hkey).
  unfold run_names in Hk.
  repeat (apply elem_of_cons in Hk as [->|Hk]; [by vm_compute in Hkey|]).
  by apply elem_of_nil in Hk.
Qed.

(** C9 (as stated, refuted): with the two keys [log] and [--log], both
    renamed to [_log], the result cannot hold both entries. *)
Lemma forward_collision :
  ~ forwards_exactly log_args ["log"; "--log"] (_forward log_args ["log"; "--log"]).
Proof.
  intros H.
  assert (_forward log_args ["log"; "--log"] !! "_log" = Some (VBool true)) as H1.
  { apply H. exists "log". split_and!.
    - apply list_elem_of_here.
    - vm_compute. reflexivity.
    - vm_compute. reflexivity. }
  assert (_forward log_args ["log"; "--log"] !! "_log" = Some (VBool false)) as H2.
  { apply H. exists "--log". split_and!.
    - apply list_elem_of_further, list_elem_of_here.
    - vm_compute. reflexivity.
    - vm_compute. reflexivity. }
  congruence.
Qed.

(** C9 (amended): [_forward args names] never holds anything but entries of
    [args] whose key is in [names], renamed and with the value unchanged;
    when the renamed keys of the selected entries are pairwise distinct it
    holds exactly those; and for the names forwarded to [run] there is no
    [_emails] entry, whatever [args] is, nor an [_email] one unless [args]
    has the key [--email]. *)
Theorem forward_selects_and_renames (args : gmap string pyval) (names : list string) :
  (forall k' v, _forward args names !! k' = Some v ->
     exists k, k ∈ names /\ args !! k = Some v /\ k' = forward_key k) /\
  (NoDup (forward_key <$> selected_keys args names) ->
     forwards_exactly args names (_forward args names)) /\
  _forward args run_names !! "_emails" = None /\
  (args !! "--email" = None -> _forward args run_names !! "_email" = None).
Proof.
  split_and!.
  - intros k' v. apply forward_sound.
  - intros Hnd k' v. split.
    + apply forward_sound.
    + intros (k & Hk & Hv & ->). by apply forward_complete.
  - apply forward_run_no_emails.
  - intros Hnone.
    destruct (_forward args run_names !! "_email") as [v|] eqn:E; [|done].
    apply forward_sound in E as (k & Hk & Hv & Hkey).
    unfold run_names in Hk.
    repeat (apply elem_of_cons in Hk as [->|Hk];
            [first [by vm_compute in Hkey | congruence]|]).
    by apply elem_of_nil in Hk.
Qed.

Lemma forward_selects_and_renames_witness :
  NoDup (forward_key <$> selected_keys run_args run_names) /\
  forwards_exactly run_args run_names (_forward run_args run_names) /\
  _forward run_args run_names !! "_email" = None.
Proof.
  assert (NoDup (forward_key <$> selected_keys run_args run_names)) as Hnd.
  { apply (bool_decide_unpack _). vm_compute. exact I. }
  destruct (forward_selects_and_renames run_args run_names) as (_ & Hex & _ & Hno).
  split_and!; [exact Hnd | exact (Hex Hnd) | apply Hno; vm_compute; reflexivity].
Defined.

(** ** Resolution of the project reference *)

Section ResolverFacts.

Variable load : string -> option string -> outcome Project.t.
Variable config_project : option string.

Lemma rsplit1_None c s : PyStr.rsplit1 c s = None <-> PyStr.contains c s = false.
Proof.
  induction s as [|d s IH]; simpl; [done|].
  destruct (PyStr.rsplit1 c s) as [[p n]|].
  - destruct (PyStr.contains c s).
    + rewrite orb_true_r. done.
    + destruct IH as [_ IH]. by specialize (IH eq_refl).
  - destruct IH as [IH _]. rewrite (IH eq_refl), orb_false_r.
    destruct (Ascii.eqb d c); done.
Qed.

(** [rsplit1] cuts at the last separator: nothing after it is one. *)
Lemma rsplit1_Some c s p n :
  PyStr.rsplit1 c s = Some (p, n) ->
  s = p +:+ String c n /\ PyStr.contains c n = false.
Proof.
  revert p n. induction s as [|d s IH]; intros p n; simpl; [done|].
  destruct (PyStr.rsplit1 c s) as [[p' n']|] eqn:E.
  - intros [= <- <-]. destruct (IH _ _ eq_refl) as [-> Hn]. done.
  - destruct (Ascii.eqb_spec d c) as [->|]; [|done].
    intros [= <- <-]. split; [done|]. by apply rsplit1_None.
Qed.

Lemma effective_reference_given (ref : string) :
  ref <> EmptyString -> effective_reference config_project (Some ref) = ref.
Proof.
  intros Hne. unfold effective_reference.
  destruct (String.eqb_spec ref EmptyString); done.
Qed.

Lemma contains_nonempty c s : PyStr.contains c s = true -> s <> EmptyString.
Proof. by destruct s. Qed.

(** C5: a reference with a colon in it is cut at its last colon, whatever
    colons come before, the project [name] is loaded from [path], and a
    failure of the loader is the failure of the resolution, unchanged. *)
Theorem parse_project_splits_at_last_colon (ref : string) (require_project : bool) :
  PyStr.contains ":" ref = true ->
  exists path name,
    ref = path +:+ ":" +:+ name /\
    PyStr.contains ":" name = false /\
    _parse_project load config_project (Some ref) require_project
    = match load path (Some name) with
      | Return project => Return (name, Some project)
      | Raise e => Raise e
      end.
Proof.
  intros Hc. unfold _parse_project.
  rewrite (effective_reference_given ref) by (by eapply contains_nonempty).
  rewrite Hc.
  destruct (PyStr.rsplit1 ":" ref) as [[path name]|] eqn:E.
  - apply rsplit1_Some in E as [-> Hn]. by exists path, name.
  - apply rsplit1_None in E. congruence.
Qed.

(** C6: a reference without a colon that is no loadable module is taken
    as a bare project name when no project is required, and reported as a
    missing project configuration, with the advice to use [--project],
    when one is. *)
Theorem bare_name_when_not_loadable (ref msg : string) :
  ref <> EmptyString ->
  PyStr.contains ":" ref = false ->
  load ref None = Raise (ImportError msg) ->
  _parse_project load config_project (Some ref) false = Return (ref, None) /\
  _get_project_name load config_project (Some ref) = Return ref /\
  _load_project load config_project (Some ref)
  = Raise (AzkabanError project_required_message) /\
  PyStr.occurs_in "using the `--project` option" project_required_message.
Proof.
  intros Hne Hc Hload.
  unfold _load_project, _get_project_name, _parse_project.
  rewrite effective_reference_given by done. rewrite Hc, Hload. simpl.
  split_and!; try done.
  exists ("This command requires a project configuration module which was not found."
          +:+ PyStr.nl +:+ "You can specify another location "), ".".
  vm_compute. reflexivity.
Qed.

(** C8: when the resolution returns, it returns a name together with a
    project or with none, and it returns none only for a reference
    without a colon that the loader could not import while no project was
    required; the name is then the reference itself. *)
Theorem parse_project_name_and_project
    (_project : option string) (require_project : bool)
    (name : string) (project : option Project.t) :
  _parse_project load config_project _project require_project
  = Return (name, project) ->
  let ref := effective_reference config_project _project in
  match project with
  | Some p =>
      (PyStr.contains ":" ref = true /\
       exists path, ref = path +:+ ":" +:+ name /\ load path (Some name) = Return p) \/
      (PyStr.contains ":" ref = false /\
       load ref None = Return p /\ name = Project.name p)
  | None =>
      PyStr.contains ":" ref = false /\
      (exists msg, load ref None = Raise (ImportError msg)) /\
      require_project = false /\
      name = ref
  end.
Proof.
  unfold _parse_project. simpl.
  set (ref := effective_reference config_project _project).
  destruct (PyStr.contains ":" ref) eqn:Hc.
  - destruct (PyStr.rsplit1 ":" ref) as [[path n]|] eqn:E; [|done].
    apply rsplit1_Some in E as [Href _].
    destruct (load path (Some n)) as [p|e] eqn:Hl; [|done].
    intros [= <- <-]. left. split; [done|]. by exists path.
  - destruct (load ref None) as [p|e] eqn:Hl.
    + intros [= <- <-]. by right.
    + destruct e; try done.
      destruct require_project; [done|]. simpl.
      intros [= <- <-]. split_and!; eauto.
Qed.

End ResolverFacts.

Lemma parse_project_splits_at_last_colon_witness :
  PyStr.contains ":" "c:/flows/jobs.py:warehouse" = true /\
  exists path name,
    "c:/flows/jobs.py:warehouse" = path +:+ ":" +:+ name /\
    PyStr.contains ":" name = false /\
    _parse_project demo_load None (Some "c:/flows/jobs.py:warehouse") false
    = match demo_load path (Some name) with
      | Return project => Return (name, Some project)
      | Raise e => Raise e
      end.
Proof.
  split; [reflexivity|].
  apply (parse_project_splits_at_last_colon demo_load None
           "c:/flows/jobs.py:warehouse" false).
  reflexivity.
Defined.

Lemma bare_name_when_not_loadable_witness :
  _parse_project demo_load None (Some "warehouse") false = Return ("warehouse", None) /\
  _get_project_name demo_load None (Some "warehouse") = Return "warehouse" /\
  _load_project demo_load None (Some "warehouse")
  = Raise (AzkabanError project_required_message) /\
  PyStr.occurs_in "using the `--project` option" project_required_message.
Proof.
  apply (bare_name_when_not_loadable demo_load None "warehouse" "No module named warehouse").
  - discriminate.
  - reflexivity.
  - reflexivity.
Defined.

Lemma parse_project_name_and_project_witness :
  PyStr.contains ":" "jobs" = false /\
  (exists msg, demo_load "jobs" None = Raise (ImportError msg)) /\
  false = false /\
  "jobs" = "jobs".
Proof.
  apply (parse_project_name_and_project demo_load None None false "jobs" None).
  reflexivity.
Defined.

(** ** The upload loops *)

Section UploadLoops.

Context {R : Type}.
Variable srv : Remote.server R.

Lemma upload_project_loop_shape fuel name _zip _create w :
  upload_project_loop srv fuel name _zip _create w
  = retry_loop srv (fun _ => _create) fuel name _zip None w.
Proof.
  revert w. induction fuel as [|fuel IH]; intros w; simpl; [done|].
  destruct (session_upload_project srv name _zip None w) as [w1 [res|e]]; [done|].
  destruct e; try done. destruct _create; [|done].
  destruct (session_create_project srv name name w1) as [w2 [[]|e]]; [|done].
  apply IH.
Qed.

Lemma build_project_loop_shape fuel name _zip archive_name _create w :
  build_project_loop srv fuel name _zip archive_name _create w
  = retry_loop srv (fun msg => _create && PyStr.endswith msg "doesn't exist.")
               fuel name _zip (Some archive_name) w.
Proof.
  revert w. induction fuel as [|fuel IH]; intros w; simpl; [done|].
  destruct (session_upload_project srv name _zip (Some archive_name) w)
    as [w1 [res|e]]; [done|].
  destruct e; try done.
  destruct (_create && PyStr.endswith msg "doesn't exist."); [|done].
  destruct (session_create_project srv name name w1) as [w2 [[]|e]]; [|done].
  apply IH.
Qed.

Variable create_after : string -> bool.
Variables (name _zip : string) (archive_name : option string).

Local Abbreviation loop :=
  (fun fuel => retry_loop srv create_after fuel name _zip archive_name).
Local Abbreviation U := (Remote.Upload name _zip archive_name).
Local Abbreviation C := (Remote.Create name name).

(** The upload succeeds: one request, and the loop is left. *)
Lemma retry_loop_done fuel w r1 res :
  Remote.upload srv name _zip archive_name (remote w) = (r1, Return res) ->
  loop (S fuel) w = Some (World r1 (calls w ++ [U]) (stdout w), Return res).
Proof. intros H. simpl. unfold session_upload_project. by rewrite H. Qed.

(** The upload fails and no project is to be created: the error is
    raised again as it is. *)
Lemma retry_loop_reraise fuel w r1 e :
  Remote.upload srv name _zip archive_name (remote w) = (r1, Raise e) ->
  match e with AzkabanError msg => create_after msg | _ => false end = false ->
  loop (S fuel) w = Some (World r1 (calls w ++ [U]) (stdout w), Raise e).
Proof.
  intros H Hc. simpl. unfold session_upload_project. rewrite H.
  destruct e; try done. by rewrite Hc.
Qed.

(** The upload fails, the project is created: next iteration. *)
Lemma retry_loop_again fuel w r1 r2 msg :
  Remote.upload srv name _zip archive_name (remote w) = (r1, Raise (AzkabanError msg)) ->
  create_after msg = true ->
  Remote.create srv name name r1 = (r2, Return tt) ->
  loop (S fuel) w = loop fuel (World r2 (calls w ++ [U; C]) (stdout w)).
Proof.
  intros H Hc Hcr. simpl. unfold session_upload_project. rewrite H, Hc.
  unfold session_create_project. simpl. rewrite Hcr.
  by rewrite <- app_assoc.
Qed.

(** The upload fails and so does the creation: its error is raised. *)
Lemma retry_loop_create_fails fuel w r1 r2 msg e :
  Remote.upload srv name _zip archive_name (remote w) = (r1, Raise (AzkabanError msg)) ->
  create_after msg = true ->
  Remote.create srv name name r1 = (r2, Raise e) ->
  loop (S fuel) w = Some (World r2 (calls w ++ [U; C]) (stdout w), Raise e).
Proof.
  intros H Hc Hcr. simpl. unfold session_upload_project. rewrite H, Hc.
  unfold session_create_project. simpl. rewrite Hcr.
  by rewrite <- app_assoc.
Qed.

(** The protocol after a first failure that asks for a creation. *)
Lemma retry_loop_protocol w r1 msg :
  Remote.upload srv name _zip archive_name (remote w) = (r1, Raise (AzkabanError msg)) ->
  create_after msg = true ->
  (forall r2 e fuel,
     Remote.create srv name name r1 = (r2, Raise e) ->
     loop (S fuel) w = Some (World r2 (calls w ++ [U; C]) (stdout w), Raise e)) /\
  (forall r2 r3 res fuel,
     Remote.create srv name name r1 = (r2, Return tt) ->
     Remote.upload srv name _zip archive_name r2 = (r3, Return res) ->
     loop (S (S fuel)) w
     = Some (World r3 (calls w ++ [U; C; U]) (stdout w), Return res)) /\
  (forall r2 r3 msg' fuel,
     Remote.create srv name name r1 = (r2, Return tt) ->
     Remote.upload srv name _zip archive_name r2 = (r3, Raise (AzkabanError msg')) ->
     create_after msg' = true ->
     loop (S (S fuel)) w
     = match Remote.create srv name name r3 with
       | (r4, Return _) => loop fuel (World r4 (calls w ++ [U; C; U; C]) (stdout w))
       | (r4, Raise e) => Some (World r4 (calls w ++ [U; C; U; C]) (stdout w), Raise e)
       end).
Proof.
  intros Hup Hc. split_and!.
  - intros r2 e fuel Hcr. by eapply retry_loop_create_fails.
  - intros r2 r3 res fuel Hcr Hup2.
    rewrite (retry_loop_again _ _ _ _ _ Hup Hc Hcr).
    rewrite (retry_loop_done _ _ r3 res) by done. simpl.
    by rewrite <- app_assoc.
  - intros r2 r3 msg' fuel Hcr Hup2 Hc'.
    rewrite (retry_loop_again _ _ _ _ _ Hup Hc Hcr).
    destruct (Remote.create srv name name r3) as [r4 [[]|e]] eqn:Hcr2.
    + rewrite (retry_loop_again _ _ r3 r4 msg') by done. simpl.
      by rewrite <- app_assoc.
    + rewrite (retry_loop_create_fails _ _ r3 r4 msg' e) by done. simpl.
      by rewrite <- app_assoc.
Qed.

End UploadLoops.

Section UploadProject.

Context {R : Type}.
Variable srv : Remote.server R.
Variable env : local_env.

(** [upload_project] around its loop: the session, the loop from the
    state the session leaves, the report. *)
Lemma upload_project_unfold fuel name _zip _url _alias _create r r0 session cs out :
  Remote.connect srv _url _alias r = (r0, Return session) ->
  upload_project srv env fuel name _zip _url _alias _create (World r cs out)
  = match upload_project_loop srv fuel name _zip _create (World r0 cs out) with
    | Some (w1, Return res) =>
        Some (World (remote w1) (calls w1)
                    (stdout w1 ++ [upload_report env name _zip session res]),
              Return tt)
    | Some (w1, Raise e) => Some (w1, Raise e)
    | None => None
    end.
Proof.
  intros Hc. unfold upload_project, mbind, F_bind, total, Session. simpl.
  rewrite Hc. simpl.
  destruct (upload_project_loop srv fuel name _zip _create (World r0 cs out))
    as [[w1 [res|e]]|]; done.
Qed.

(** C1 (amended): with [--create], after a first upload refused because
    the project does not exist, one create-project request with
    [(name, name)] follows.  If it fails, its error ends the call, after
    one upload and one create request.  If it succeeds and the second
    upload succeeds, the call succeeds after exactly one create and two
    upload requests.  If the second upload is refused for the same reason,
    the client sends a second create request and, when that succeeds, goes
    on uploading: the loop has no bound of its own.  The loop of
    [build_project] follows the same protocol. *)
Theorem create_if_missing_protocol
    (name _zip : string) (_url _alias : option string)
    (r r0 r1 : R) (session : Remote.session) (msg : string)
    (cs : list Remote.call) (out : list string) :
  Remote.connect srv _url _alias r = (r0, Return session) ->
  Remote.upload srv name _zip None r0 = (r1, Raise (AzkabanError msg)) ->
  PyStr.endswith msg "doesn't exist." = true ->
  let U := Remote.Upload name _zip None in
  let C := Remote.Create name name in
  (forall r2 e fuel,
     Remote.create srv name name r1 = (r2, Raise e) ->
     upload_project srv env (S fuel) name _zip _url _alias true (World r cs out)
     = Some (World r2 (cs ++ [U; C]) out, Raise e)) /\
  (forall r2 r3 res fuel,
     Remote.create srv name name r1 = (r2, Return tt) ->
     Remote.upload srv name _zip None r2 = (r3, Return res) ->
     upload_project srv env (S (S fuel)) name _zip _url _alias true (World r cs out)
     = Some (World r3 (cs ++ [U; C; U])
                   (out ++ [upload_report env name _zip session res]),
             Return tt) /\
     Remote.uploads (cs ++ [U; C; U]) = Remote.uploads cs + 2 /\
     Remote.creates (cs ++ [U; C; U]) = Remote.creates cs + 1) /\
  (forall r2 r3 msg' fuel,
     Remote.create srv name name r1 = (r2, Return tt) ->
     Remote.upload srv name _zip None r2 = (r3, Raise (AzkabanError msg')) ->
     PyStr.endswith msg' "doesn't exist." = true ->
     upload_project_loop srv (S (S fuel)) name _zip true (World r0 cs out)
     = match Remote.create srv name name r3 with
       | (r4, Return _) =>
           upload_project_loop srv fuel name _zip true
             (World r4 (cs ++ [U; C; U; C]) out)
       | (r4, Raise e) => Some (World r4 (cs ++ [U; C; U; C]) out, Raise e)
       end) /\
  (forall archive_name w b1 msg1,
     Remote.upload srv name _zip (Some archive_name) (remote w)
     = (b1, Raise (AzkabanError msg1)) ->
     PyStr.endswith msg1 "doesn't exist." = true ->
     let U' := Remote.Upload name _zip (Some archive_name) in
     (forall b2 e fuel,
        Remote.create srv name name b1 = (b2, Raise e) ->
        build_project_loop srv (S fuel) name _zip archive_name true w
        = Some (World b2 (calls w ++ [U'; C]) (stdout w), Raise e)) /\
     (forall b2 b3 res fuel,
        Remote.create srv name name b1 = (b2, Return tt) ->
        Remote.upload srv name _zip (Some archive_name) b2 = (b3, Return res) ->
        build_project_loop srv (S (S fuel)) name _zip archive_name true w
        = Some (World b3 (calls w ++ [U'; C; U']) (stdout w), Return res)) /\
     (forall b2 b3 msg' fuel,
        Remote.create srv name name b1 = (b2, Return tt) ->
        Remote.upload srv name _zip (Some archive_name) b2
        = (b3, Raise (AzkabanError msg')) ->
        PyStr.endswith msg' "doesn't exist." = true ->
        build_project_loop srv (S (S fuel)) name _zip archive_name true w
        = match Remote.create srv name name b3 with
          | (b4, Return _) =>
              build_project_loop srv fuel name _zip archive_name true
                (World b4 (calls w ++ [U'; C; U'; C]) (stdout w))
          | (b4, Raise e) =>
              Some (World b4 (calls w ++ [U'; C; U'; C]) (stdout w), Raise e)
          end)).
Proof.
  intros Hconn Hup Hmiss U C.
  destruct (retry_loop_protocol srv (fun _ => true) name _zip None
              (World r0 cs out) r1 msg Hup eq_refl) as (Hfail & Hok & Hagain).
  split_and!.
  - intros r2 e fuel Hcr.
    rewrite (upload_project_unfold _ _ _ _ _ _ _ _ _ _ _ Hconn).
    rewrite upload_project_loop_shape. by rewrite (Hfail r2 e fuel Hcr).
  - intros r2 r3 res fuel Hcr Hup2. split_and!.
    + rewrite (upload_project_unfold _ _ _ _ _ _ _ _ _ _ _ Hconn).
      rewrite upload_project_loop_shape. by rewrite (Hok r2 r3 res fuel Hcr Hup2).
    + unfold Remote.uploads. rewrite filter_app, length_app. simpl. lia.
    + unfold Remote.creates. rewrite filter_app, length_app. simpl. lia.
  - intros r2 r3 msg' fuel Hcr Hup2 _.
    rewrite !upload_project_loop_shape.
    rewrite (Hagain r2 r3 msg' fuel Hcr Hup2 eq_refl). simpl.
    destruct (Remote.create srv name name r3) as [r4 [[]|e]]; [|done].
    by rewrite upload_project_loop_shape.
  - intros archive_name w b1 msg1 Hup1 Hmiss1 U'.
    destruct (retry_loop_protocol srv
                (fun m => true && PyStr.endswith m "doesn't exist.")
                name _zip (Some archive_name) w b1 msg1 Hup1 Hmiss1)
      as (Hf & Ho & Ha).
    split_and!.
    + intros b2 e fuel Hcr. rewrite build_project_loop_shape.
      apply (Hf b2 e fuel Hcr).
    + intros b2 b3 res fuel Hcr Hup2. rewrite build_project_loop_shape.
      apply (Ho b2 b3 res fuel Hcr Hup2).
    + intros b2 b3 msg' fuel Hcr Hup2 Hm'.
      rewrite build_project_loop_shape.
      rewrite (Ha b2 b3 msg' fuel Hcr Hup2 Hm'). simpl.
      destruct (Remote.create srv name name b3) as [b4 [[]|e]]; [|done].
      by rewrite build_project_loop_shape.
Qed.

(** C7: without [--create], an upload that the remote refuses, for a
    missing project or for anything else, ends the call with the very
    error the remote raised, after that one request and without any
    create-project request. *)
Theorem upload_without_create_reraises
    (name _zip : string) (_url _alias : option string)
    (r r0 r1 : R) (session : Remote.session) (e : exn)
    (cs : list Remote.call) (out : list string) (fuel : nat) :
  Remote.connect srv _url _alias r = (r0, Return session) ->
  Remote.upload srv name _zip None r0 = (r1, Raise e) ->
  upload_project srv env (S fuel) name _zip _url _alias false (World r cs out)
  = Some (World r1 (cs ++ [Remote.Upload name _zip None]) out, Raise e) /\
  Remote.creates (cs ++ [Remote.Upload name _zip None]) = Remote.creates cs.
Proof.
  intros Hconn Hup. split.
  - rewrite (upload_project_unfold _ _ _ _ _ _ _ _ _ _ _ Hconn).
    rewrite upload_project_loop_shape.
    rewrite (retry_loop_reraise srv _ name _zip None fuel (World r0 cs out) r1 e Hup);
      [done|by destruct e].
  - unfold Remote.creates. rewrite filter_app, length_app. simpl. lia.
Qed.

(** In [build_project] a refusal for another reason than a missing
    project is raised again at once, with or without [--create]. *)
Lemma build_loop_other_refusal name _zip archive_name _create w r1 msg fuel :
  Remote.upload srv name _zip (Some archive_name) (remote w)
  = (r1, Raise (AzkabanError msg)) ->
  PyStr.endswith msg "doesn't exist." = false ->
  build_project_loop srv (S fuel) name _zip archive_name _create w
  = Some (World r1 (calls w ++ [Remote.Upload name _zip (Some archive_name)]) (stdout w),
          Raise (AzkabanError msg)).
Proof.
  intros Hup Hm. rewrite build_project_loop_shape.
  apply retry_loop_reraise; [done|]. by rewrite Hm, andb_false_r.
Qed.

(** An exception that is no [AzkabanError] (a transport error) leaves
    either loop at once. *)
Lemma loops_transport_error name _zip archive_name _create w r1 e fuel :
  (forall msg, e <> AzkabanError msg) ->
  (Remote.upload srv name _zip None (remote w) = (r1, Raise e) ->
   upload_project_loop srv (S fuel) name _zip _create w
   = Some (World r1 (calls w ++ [Remote.Upload name _zip None]) (stdout w), Raise e)) /\
  (Remote.upload srv name _zip (Some archive_name) (remote w) = (r1, Raise e) ->
   build_project_loop srv (S fuel) name _zip archive_name _create w
   = Some (World r1 (calls w ++ [Remote.Upload name _zip (Some archive_name)]) (stdout w),
           Raise e)).
Proof.
  intros Hne. split; intros Hup.
  - rewrite upload_project_loop_shape. apply retry_loop_reraise; [done|].
    destruct e; try done. by destruct (Hne msg).
  - rewrite build_project_loop_shape. apply retry_loop_reraise; [done|].
    destruct e; try done. by destruct (Hne msg).
Qed.

End UploadProject.

Lemma create_if_missing_protocol_witness :
  upload_project flaky_server demo_env 2 "warehouse" "warehouse.zip" None None true (start 1)
  = Some (World 0 [Remote.Upload "warehouse" "warehouse.zip" None;
                   Remote.Create "warehouse" "warehouse";
                   Remote.Upload "warehouse" "warehouse.zip" None]
                  [upload_report demo_env "warehouse" "warehouse.zip" demo_session demo_upload],
          Return tt).
Proof.
  destruct (create_if_missing_protocol flaky_server demo_env
              "warehouse" "warehouse.zip" None None 1 1 0 demo_session
              (missing_message "warehouse") [] [])
    as (_ & Hok & _); [reflexivity | reflexivity | reflexivity |].
  destruct (Hok 0 0 demo_upload 0) as [Hrun _]; [reflexivity | reflexivity |].
  exact Hrun.
Defined.

Lemma upload_without_create_reraises_witness :
  upload_project flaky_server demo_env 1 "warehouse" "warehouse.zip" None None false (start 1)
  = Some (World 0 [Remote.Upload "warehouse" "warehouse.zip" None] [],
          Raise (AzkabanError (missing_message "warehouse"))) /\
  Remote.creates ([] ++ [Remote.Upload "warehouse" "warehouse.zip" None]) = Remote.creates [].
Proof.
  apply (upload_without_create_reraises flaky_server demo_env
           "warehouse" "warehouse.zip" None None 1 1 0 demo_session
           (AzkabanError (missing_message "warehouse")) [] [] 0).
  - reflexivity.
  - reflexivity.
Defined.

(** C1 (as stated, refuted): a remote that twice answers that the project
    does not exist receives three uploads and two create-project requests
    before the call succeeds. *)
Lemma upload_retried_twice :
  ~ at_most_two_uploads flaky_server demo_env "warehouse" "warehouse.zip" None None (start 2).
Proof.
  intros H.
  specialize (H 3 _ _ eq_refl). vm_compute in H. lia.
Qed.

Example upload_retried_twice_run :
  exists w,
    upload_project flaky_server demo_env 3 "warehouse" "warehouse.zip" None None true (start 2)
    = Some (w, Return tt) /\
    Remote.uploads (calls w) = 3 /\ Remote.creates (calls w) = 2.
Proof. eexists. split_and!; reflexivity. Qed.

(** A remote that keeps answering that the project does not exist keeps the
    loop going: no bound on the iterations is enough for it to return. *)
Lemma upload_loop_never_returns fuel w :
  upload_project_loop stubborn_server fuel "warehouse" "warehouse.zip" true w = None.
Proof. revert w. induction fuel as [|fuel IH]; intros w; [done|]. simpl. apply IH. Qed.

(** C2 (the code at the failing input): the upload is refused for want of
    write access, not for a missing project; with [--create],
    [upload_project] nevertheless sends a create-project request, and the
    error the user gets is that of the creation. *)
Theorem upload_project_creates_after_any_refusal :
  upload_project denying_server demo_env 1 "warehouse" "warehouse.zip" None None true (start tt)
  = Some (World tt [Remote.Upload "warehouse" "warehouse.zip" None;
                    Remote.Create "warehouse" "warehouse"] [],
          Raise (AzkabanError "Project already exists.")).
Proof. reflexivity. Qed.

(** The same refusal in [build_project]: one upload, no creation, the
    error of the upload. *)
Example build_loop_keeps_refusal :
  build_project_loop denying_server 1 "warehouse" "/tmp/azkaban.zip" "warehouse-1.2.zip" true
                     (start tt)
  = Some (World tt [Remote.Upload "warehouse" "/tmp/azkaban.zip" (Some "warehouse-1.2.zip")] [],
          Raise (AzkabanError "Permission denied. Need WRITE access.")).
Proof. reflexivity. Qed.

(** ** The order [sorted] uses *)

Lemma ascii_compare_refl a : Ascii.compare a a = Eq.
Proof. unfold Ascii.compare. apply N.compare_refl. Qed.

Lemma ascii_compare_Lt_trans a b c :
  Ascii.compare a b = Lt -> Ascii.compare b c = Lt -> Ascii.compare a c = Lt.
Proof. unfold Ascii.compare. rewrite !N.compare_lt_iff. apply N.lt_trans. Qed.

Lemma string_compare_refl s : String.compare s s = Eq.
Proof. induction s as [|a s IH]; simpl; [done|]. by rewrite ascii_compare_refl. Qed.

Lemma string_compare_Lt_trans s1 s2 s3 :
  String.compare s1 s2 = Lt -> String.compare s2 s3 = Lt -> String.compare s1 s3 = Lt.
Proof.
  revert s2 s3. induction s1 as [|a s1 IH]; intros [|b s2] [|c s3]; simpl; try done.
  destruct (Ascii.compare a b) eqn:Hab; try done;
    destruct (Ascii.compare b c) eqn:Hbc; try done; intros H1 H2.
  - apply Ascii.compare_eq_iff in Hab as ->. rewrite Hbc. eauto.
  - apply Ascii.compare_eq_iff in Hab as ->. by rewrite Hbc.
  - apply Ascii.compare_eq_iff in Hbc as <-. by rewrite Hab.
  - by rewrite (ascii_compare_Lt_trans _ _ _ Hab Hbc).
Qed.

Lemma str_le_compare a b : str_le a b <-> String.compare a b <> Gt.
Proof. unfold str_le, String.leb. destruct (String.compare a b); split; done. Qed.

#[local] Instance str_le_total : Total str_le.
Proof. intros a b. apply String.leb_total. Qed.

#[local] Instance str_le_antisymm : AntiSymm (=) str_le.
Proof. intros a b. apply String.leb_antisym. Qed.

#[local] Instance str_le_trans : Transitive str_le.
Proof.
  intros a b c. rewrite !str_le_compare. intros Hab Hbc.
  destruct (String.compare a b) eqn:E1; [| |done].
  - by apply String.compare_eq_iff in E1 as ->.
  - destruct (String.compare b c) eqn:E2; [| |done].
    + apply String.compare_eq_iff in E2 as <-. by rewrite E1.
    + by rewrite (string_compare_Lt_trans _ _ _ E1 E2).
Qed.

#[local] Instance pair_le_total : Total pair_le.
Proof.
  intros [a1 a2] [b1 b2]. unfold pair_le, pair_leb. simpl.
  rewrite (String.compare_antisym b1 a1).
  destruct (String.compare a1 b1) eqn:E; simpl; auto.
  apply String.leb_total.
Qed.

#[local] Instance pair_le_antisymm : AntiSymm (=) pair_le.
Proof.
  intros [a1 a2] [b1 b2]. unfold pair_le, pair_leb. simpl.
  rewrite (String.compare_antisym b1 a1).
  destruct (String.compare a1 b1) eqn:E; simpl; try done.
  apply String.compare_eq_iff in E as ->.
  intros H1 H2. by rewrite (String.leb_antisym _ _ H1 H2).
Qed.

#[local] Instance pair_le_trans : Transitive pair_le.
Proof.
  intros [a1 a2] [b1 b2] [c1 c2]. unfold pair_le, pair_leb. simpl.
  destruct (String.compare a1 b1) eqn:E1; try done.
  - apply String.compare_eq_iff in E1 as ->.
    destruct (String.compare b1 c1); try done. apply str_le_trans.
  - destruct (String.compare b1 c1) eqn:E2; try done.
    + apply String.compare_eq_iff in E2 as <-. by rewrite E1.
    + by rewrite (string_compare_Lt_trans _ _ _ E1 E2).
Qed.

#[local] Instance item_le_total {V} : Total (@item_le V).
Proof. intros a b. apply str_le_total. Qed.

#[local] Instance item_le_trans {V} : Transitive (@item_le V).
Proof. intros a b c. apply str_le_trans. Qed.

(** [sorted(d)]: the keys of [d], each once, in increasing order; there is
    no other such list. *)
Lemma sorted_keys_spec {V} (d : gmap string V) :
  StronglySorted str_le (sorted_keys d) /\
  sorted_keys d ≡ₚ (map_to_list d).*1 /\
  forall l, StronglySorted str_le l -> l ≡ₚ (map_to_list d).*1 -> l = sorted_keys d.
Proof.
  unfold sorted_keys. split_and!.
  - apply (StronglySorted_merge_sort _).
  - apply merge_sort_Permutation.
  - intros l Hl Hp. apply (StronglySorted_unique str_le); [done| |].
    + apply (StronglySorted_merge_sort _).
    + by rewrite merge_sort_Permutation.
Qed.

(** [sorted(d.items())]: the items of [d] in the order of their keys. *)
Lemma sorted_items_spec {V} (d : gmap string V) :
  (sorted_items d).*1 = sorted_keys d /\
  sorted_items d ≡ₚ map_to_list d /\
  forall name v, (name, v) ∈ sorted_items d <-> d !! name = Some v.
Proof.
  assert (sorted_items d ≡ₚ map_to_list d) as Hp
    by apply merge_sort_Permutation.
  split_and!; [|done|].
  - apply sorted_keys_spec.
    + apply (StronglySorted_fmap _ item_le); [done|].
      apply (StronglySorted_merge_sort _).
    + by rewrite Hp.
  - intros name v. rewrite Hp. apply elem_of_map_to_list.
Qed.

(** [sorted(l)] on 2-tuples. *)
Lemma sorted_pairs_spec (l : list (string * string)) :
  StronglySorted pair_le (sorted_pairs l) /\
  sorted_pairs l ≡ₚ l /\
  forall l', StronglySorted pair_le l' -> l' ≡ₚ l -> l' = sorted_pairs l.
Proof.
  unfold sorted_pairs. split_and!.
  - apply (StronglySorted_merge_sort _).
  - apply merge_sort_Permutation.
  - intros l' Hl Hp. apply (StronglySorted_unique pair_le); [done| |].
    + apply (StronglySorted_merge_sort _).
    + by rewrite merge_sort_Permutation.
Qed.

(** ** [view_info] *)

Section ViewInfo.

Context {R : Type}.
Variable env : local_env.

(** The text of the three kinds of line. *)
Lemma job_name_line_text (name : string) : job_name_line name = name +:+ PyStr.nl.
Proof. reflexivity. Qed.

Lemma job_options_line_text (option_names : list string) (item : string * Job.t) :
  job_options_line option_names item
  = item.1 +:+ PyStr.tab +:+
    PyStr.join PyStr.tab
      ((fun o => default EmptyString (Job.options item.2 !! o)) <$> option_names)
    +:+ PyStr.nl.
Proof. reflexivity. Qed.

Lemma file_line_text (entry : string * string) :
  file_line env entry = relpath env entry.1 +:+ PyStr.tab +:+ entry.2 +:+ PyStr.nl.
Proof. reflexivity. Qed.

(** C10: without job arguments, [view_info] writes a listing and nothing
    else happens: the remote and the requests sent to it are as before.
    Under [--files] there is one line per file entry, the relative local
    path, a tab, the archive path and a newline, in increasing order of
    (local path, archive path).  Otherwise there is one line per job, in
    increasing order of the job names: the name and a newline, or, under
    [--options], the name, a tab, the values of the asked options
    separated by tabs (empty for an option the job does not have) and a
    newline.  In each case the order is the only sorted arrangement of the
    project's entries, whatever order the project holds them in. *)
Theorem view_info_listing_sorted (project : Project.t) (_files : bool)
    (_options : option string) (_include_properties : bool) (w : world R) :
  exists lines,
    view_info env project _files _options [] _include_properties w
    = (World (remote w) (calls w) (stdout w ++ lines), Return tt) /\
    if _files then
      exists entries,
        lines = (fun entry : string * string =>
                   relpath env entry.1 +:+ PyStr.tab +:+ entry.2 +:+ PyStr.nl)
                <$> entries /\
        StronglySorted pair_le entries /\
        entries ≡ₚ Project.files project /\
        (forall l, StronglySorted pair_le l -> l ≡ₚ Project.files project ->
                   l = entries)
    else
      exists items,
        StronglySorted str_le items.*1 /\
        items ≡ₚ map_to_list (Project.jobs project) /\
        (forall l, StronglySorted str_le l ->
                   l ≡ₚ (map_to_list (Project.jobs project)).*1 -> l = items.*1) /\
        lines = match _options with
                | Some (String c o) =>
                    (fun item : string * Job.t =>
                       item.1 +:+ PyStr.tab +:+
                       PyStr.join PyStr.tab
                         ((fun o => default EmptyString (Job.options item.2 !! o))
                          <$> PyStr.split "," (String c o))
                       +:+ PyStr.nl) <$> items
                | _ => (fun name => name +:+ PyStr.nl) <$> items.*1
                end.
Proof.
  destruct (sorted_items_spec (Project.jobs project)) as (Hkeys & Hperm & _).
  destruct (sorted_keys_spec (Project.jobs project)) as (Hsorted & _ & Huniq).
  destruct (sorted_pairs_spec (Project.files project)) as (Hfs & Hfp & Hfu).
  unfold view_info, write_all. destruct _files.
  - eexists. split; [reflexivity|].
    exists (sorted_pairs (Project.files project)). split_and!; try done.
  - destruct _options as [[|c o]|].
    + eexists. split; [reflexivity|].
      exists (sorted_items (Project.jobs project)).
      rewrite Hkeys. split_and!; done.
    + eexists. split; [reflexivity|].
      exists (sorted_items (Project.jobs project)).
      rewrite Hkeys. split_and!; done.
    + eexists. split; [reflexivity|].
      exists (sorted_items (Project.jobs project)).
      rewrite Hkeys. split_and!; done.
Qed.

End ViewInfo.

Example view_info_names :
  (view_info demo_env warehouse false None [] false (start tt)).1
  = World tt [] ["cleanup" +:+ PyStr.nl; "etl" +:+ PyStr.nl; "report" +:+ PyStr.nl].
Proof. vm_compute. reflexivity. Qed.

Example view_info_options :
  stdout (view_info demo_env warehouse false (Some "type,retries") [] false (start tt)).1
  = ["cleanup" +:+ PyStr.tab +:+ "command" +:+ PyStr.tab +:+ PyStr.nl;
     "etl" +:+ PyStr.tab +:+ "pig" +:+ PyStr.tab +:+ PyStr.nl;
     "report" +:+ PyStr.tab +:+ "command" +:+ PyStr.tab +:+ "2" +:+ PyStr.nl].
Proof. vm_compute. reflexivity. Qed.

Example view_info_files :
  stdout (view_info demo_env warehouse true None [] false (start tt)).1
  = ["/srv/q/a.sql" +:+ PyStr.tab +:+ "sql/z.sql" +:+ PyStr.nl;
     "/srv/q/b.sql" +:+ PyStr.tab +:+ "sql/b.sql" +:+ PyStr.nl].
Proof. vm_compute. reflexivity. Qed.

(** ** [view_log] *)

Section ViewLog.

Context {R : Type}.
Variable srv : Remote.server R.

















End ViewLog.



Example view_log_job_message :
  (view_log flaky_server "12" ["etl"] None None (start 0)).2
  = Raise (AzkabanError "Execution 12 and/or job ['etl'] not found.").
Proof. vm_compute. reflexivity. Qed.

Example view_log_execution_message :
  (view_log flaky_server "12" [] None None (start 0)).2
  = Raise (AzkabanError "Execution 12 not found.").
Proof. vm_compute. reflexivity. Qed.

Example repr_quote : PyStr.repr "it's" = String PyStr.double_quote ("it's" +:+ String PyStr.double_quote EmptyString).
Proof. vm_compute. reflexivity. Qed.

Example repr_newline :
  PyStr.repr (String "a" (String (ascii_of_nat 10) (String (ascii_of_nat 200) EmptyString)))
  = "'a\n\xc8'".
Proof. vm_compute. reflexivity. Qed.

(** ** [run_flow] and the [run] command *)

Section RunFlow.

Context {R : Type}.
Variable srv : Remote.server R.

(** The request [run_flow] sends: the concurrency flag is the negation of
    [--skip], the failure policy is [cancel] under [--kill] and [finish]
    otherwise, and the recipients are the pieces of [--emails] between
    commas, or none when the option is absent or empty. *)
Lemma run_flow_calls (project_name _workflow : string) (_job : list string)
    (_url _alias : option string) (_skip _kill : bool) (_emails : option string)
    (r r0 : R) (session : Remote.session) (cs : list Remote.call) (out : list string) :
  Remote.connect srv _url _alias r = (r0, Return session) ->
  calls (run_flow srv project_name _workflow _job _url _alias _skip _kill _emails
                  (World r cs out)).1
  = (cs ++ [Remote.Run project_name _workflow _job (negb _skip)
              (if _kill then "cancel" else "finish")
              (match _emails with
               | Some (String c e) => Some (PyStr.split "," (String c e))
               | _ => None
               end)])%list.
Proof.
  intros Hconn.
  unfold run_flow, mbind, M_bind, Session, session_run_workflow, write. simpl.
  rewrite Hconn. simpl.
  destruct _emails as [[|c e]|]; simpl;
    match goal with
    | |- context [Remote.run srv ?a ?b ?c ?d ?e ?f ?g] =>
        destruct (Remote.run srv a b c d e f g) as [r1 [exec_id|err]]
    end; done.
Qed.

(** Whatever [args] holds, the keywords [main] forwards for [run] do not
    bind the parameters of [run_flow]: the call is a [TypeError] and the
    body of [run_flow] does not run. *)
Lemma call_run_flow_forward_fails (args : gmap string pyval) (project_name : string)
    (w : world R) :
  exists msg,
    call_run_flow srv project_name (_forward args run_names) w
    = (w, Raise (TypeError msg)).
Proof.
  unfold call_run_flow, mbind, M_bind, of_outcome, bind_keywords.
  destruct (filter _ (map_to_list (_forward args run_names)).*1) as [|k ks];
    [|by eexists].
  match goal with
  | |- context [filter ?P ?l] => destruct (filter P l) as [|p ps] eqn:E
  end; [|by eexists].
  exfalso.
  assert ("_emails" ∈ ([] : list string)) as Hin; [|by apply elem_of_nil in Hin].
  rewrite <- E. apply list_elem_of_filter. split.
  - apply forward_run_no_emails.
  - do 6 apply list_elem_of_further. apply list_elem_of_here.
Qed.

End RunFlow.

Example run_flow_emails :
  calls (run_flow flaky_server "warehouse" "etl" [] None None false true (Some "a@x,b@y")
                  (start 0)).1
  = [Remote.Run "warehouse" "etl" [] true "cancel" (Some ["a@x"; "b@y"])].
Proof. vm_compute. reflexivity. Qed.

(** C3 (the code at the failing input): for [azkaban run -k -e a@x,b@y etl]
    the name [--email] that [main] forwards matches no parsed option, so
    [run_flow] is called without [_emails]: the call is a [TypeError], no
    request is sent and nothing is written. *)
Theorem main_run_drops_emails :
  main flaky_server demo_env demo_load None None 1 run_args (start 0)
  = Some (start 0, Raise (TypeError "run_flow() is given no value for '_emails'")).
Proof. vm_compute. reflexivity. Qed.

(** * Further properties of the commands *)

(** ** Project resolution *)

Section ResolverMore.

Variable load : string -> option string -> outcome Project.t.
Variable config_project : option string.

(** A reference without a colon that the loader can import resolves to the
    name the project declares, which need not be the reference; the three
    resolving functions agree on it. *)
Theorem parse_project_declared_name (ref : string) (p : Project.t)
    (require_project : bool) :
  ref <> EmptyString ->
  PyStr.contains ":" ref = false ->
  load ref None = Return p ->
  _parse_project load config_project (Some ref) require_project
  = Return (Project.name p, Some p) /\
  _get_project_name load config_project (Some ref) = Return (Project.name p) /\
  _load_project load config_project (Some ref) = Return (Some p).
Proof.
  intros Hne Hc Hl. unfold _load_project, _get_project_name, _parse_project.
  rewrite !effective_reference_given by done. by rewrite Hc, Hl.
Qed.

(** [_load_project] never returns without a project and never lets an
    [ImportError] through: it returns what [_parse_project] found under
    [require_project=True], raises the advice to use [--project] when that
    raised an [ImportError] (also for a [path:name] reference), and raises
    any other exception as it is. *)
Theorem load_project_outcome (_project : option string) :
  match _load_project load config_project _project with
  | Return None => False
  | Return (Some p) =>
      exists name, _parse_project load config_project _project true
                   = Return (name, Some p)
  | Raise (ImportError _) => False
  | Raise e =>
      _parse_project load config_project _project true = Raise e \/
      (e = AzkabanError project_required_message /\
       exists msg, _parse_project load config_project _project true
                   = Raise (ImportError msg))
  end.
Proof.
  unfold _load_project.
  destruct (_parse_project load config_project _project true)
    as [[name [p|]]|e] eqn:E.
  - by exists name.
  - unfold _parse_project in E.
    destruct (PyStr.contains ":" _).
    + destruct (PyStr.rsplit1 ":" _) as [[path n]|]; [|done].
      destruct (load path (Some n)); done.
    + destruct (load _ None) as [p|[]]; done.
  - destruct e; eauto. right. split; [done|]. by eexists.
Qed.

(** An absent [--project] and an empty one are the same reference: the
    persisted option, or [jobs] when nothing is persisted. *)
Theorem parse_project_default_reference (require_project : bool) :
  _parse_project load config_project (Some EmptyString) require_project
  = _parse_project load config_project None require_project /\
  (config_project = None ->
   _parse_project load config_project None require_project
   = _parse_project load config_project (Some "jobs") require_project).
Proof. split; [done|]. by intros ->. Qed.


End ResolverMore.

Lemma parse_project_declared_name_witness :
  "flows/jobs.py" <> EmptyString /\
  _parse_project demo_load None (Some "flows/jobs.py") false
  = Return (Project.name warehouse, Some warehouse) /\
  _get_project_name demo_load None (Some "flows/jobs.py") = Return (Project.name warehouse) /\
  _load_project demo_load None (Some "flows/jobs.py") = Return (Some warehouse).
Proof.
  split; [discriminate|].
  apply (parse_project_declared_name demo_load None "flows/jobs.py" warehouse false).
  - discriminate.
  - reflexivity.
  - reflexivity.
Defined.


(** ** Running a workflow *)

Lemma split_nonempty c s : PyStr.split c s <> [].
Proof.
  destruct s as [|d r]; simpl; [done|].
  destruct (Ascii.eqb d c); [done|]. by destruct (PyStr.split c r).
Qed.

(** Joining the pieces of [s.split(c)] with [c] gives [s] back. *)
Lemma split_join c s : PyStr.join (String c EmptyString) (PyStr.split c s) = s.
Proof.
  induction s as [|d r IH]; simpl; [done|].
  destruct (Ascii.eqb_spec d c) as [->|Hne].
  - destruct (PyStr.split c r) as [|w ws] eqn:E; [by apply split_nonempty in E|].
    change (String c (PyStr.join (String c EmptyString) (w :: ws)) = String c r).
    by rewrite IH.
  - destruct (PyStr.split c r) as [|w ws] eqn:E; [by apply split_nonempty in E|].
    rewrite <- IH. by destruct ws.
Qed.

(** No piece of [s.split(c)] contains [c]. *)
Lemma split_pieces c s : Forall (fun x => PyStr.contains c x = false) (PyStr.split c s).
Proof.
  induction s as [|d r IH]; simpl; [by repeat constructor|].
  destruct (Ascii.eqb d c) eqn:Hd.
  - by constructor.
  - destruct (PyStr.split c r) as [|w ws]; [by repeat constructor; simpl; rewrite Hd|].
    inversion IH as [|? ? Hw Hws]; subst. constructor; [|done].
    simpl. by rewrite Hd.
Qed.

Section RunMore.

Context {R : Type}.
Variable srv : Remote.server R.
Variable env : local_env.

(** [run_flow] sends one request, after those already sent: the flow and
    the jobs as given, the concurrency flag opposite to [--skip], the
    failure policy [cancel] under [--kill] and [finish] otherwise, and no
    recipients when [--emails] is absent or empty. *)
Theorem run_flow_request (project_name _workflow : string) (_job : list string)
    (_url _alias : option string) (_skip _kill : bool) (_emails : option string)
    (r r0 : R) (session : Remote.session) (cs : list Remote.call) (out : list string) :
  Remote.connect srv _url _alias r = (r0, Return session) ->
  exists recipients,
    calls (run_flow srv project_name _workflow _job _url _alias _skip _kill _emails
                    (World r cs out)).1
    = (cs ++ [Remote.Run project_name _workflow _job (negb _skip)
                (if _kill then "cancel" else "finish") recipients])%list /\
    (_emails = None \/ _emails = Some EmptyString -> recipients = None) /\
    (forall e, _emails = Some e -> e <> EmptyString ->
               recipients = Some (PyStr.split "," e)).
Proof.
  intros Hconn. eexists. split; [by eapply run_flow_calls|].
  split.
  - by intros [-> | ->].
  - intros e -> He. by destruct e.
Qed.

(** The recipients sent for a non-empty [--emails] are its pieces between
    commas: none of them holds a comma, and joined by commas they give the
    option back. *)
Theorem run_flow_recipients (project_name _workflow : string) (_job : list string)
    (_url _alias : option string) (_skip _kill : bool) (e : string)
    (r r0 : R) (session : Remote.session) (cs : list Remote.call) (out : list string) :
  Remote.connect srv _url _alias r = (r0, Return session) ->
  e <> EmptyString ->
  exists recipients,
    calls (run_flow srv project_name _workflow _job _url _alias _skip _kill (Some e)
                    (World r cs out)).1
    = (cs ++ [Remote.Run project_name _workflow _job (negb _skip)
                (if _kill then "cancel" else "finish") (Some recipients)])%list /\
    recipients <> [] /\
    PyStr.join "," recipients = e /\
    Forall (fun x => PyStr.contains "," x = false) recipients.
Proof.
  intros Hconn He. exists (PyStr.split "," e). split_and!.
  - rewrite (run_flow_calls srv _ _ _ _ _ _ _ _ _ _ _ _ _ Hconn). by destruct e.
  - apply split_nonempty.
  - apply split_join.
  - apply split_pieces.
Qed.


Variable load : string -> option string -> outcome Project.t.
Variable config_project : option string.
Variable handler : option string.

(** The [run] command never reaches the remote: once [main] has selected
    it and resolved the project name, the call of [run_flow] is a
    [TypeError], whatever the other arguments are; nothing is sent and
    nothing is written. *)
Theorem main_run_type_error (fuel : nat) (args : gmap string pyval)
    (p : pyval) (name : string) (w : world R) :
  args !! "--log" = Some (VBool false) ->
  args !! "build" = Some (VBool false) ->
  args !! "log" = Some (VBool false) ->
  args !! "info" = Some (VBool false) ->
  args !! "run" = Some (VBool true) ->
  args !! "--project" = Some p ->
  _get_project_name load config_project (text_of p) = Return name ->
  exists msg,
    main srv env load config_project handler fuel args w
    = Some (w, Raise (TypeError msg)).
Proof.
  intros Hlog Hbuild Hl Hinfo Hrun Hp Hname.
  destruct (call_run_flow_forward_fails srv args name w) as [msg Hmsg].
  exists msg.
  unfold main, mbind, F_bind, total, of_outcome, getitem.
  rewrite Hlog. simpl. rewrite Hbuild. simpl. rewrite Hl. simpl.
  rewrite Hinfo. simpl. rewrite Hrun. simpl. rewrite Hp, Hname.
  by rewrite Hmsg.
Qed.

End RunMore.

Lemma run_flow_request_witness :
  exists recipients,
    calls (run_flow flaky_server "warehouse" "etl" ["load"] None None true false None
                    (start 0)).1
    = ([] ++ [Remote.Run "warehouse" "etl" ["load"] (negb true)
                (if false then "cancel" else "finish") recipients])%list /\
    ((None : option string) = None \/ (None : option string) = Some EmptyString ->
     recipients = None) /\
    (forall e, (None : option string) = Some e -> e <> EmptyString ->
               recipients = Some (PyStr.split "," e)).
Proof.
  apply (run_flow_request flaky_server "warehouse" "etl" ["load"] None None true false
           None 0 0 demo_session [] []).
  reflexivity.
Defined.

Lemma run_flow_recipients_witness :
  exists recipients,
    calls (run_flow flaky_server "warehouse" "etl" [] None None false true (Some "a@x,b@y")
                    (start 0)).1
    = ([] ++ [Remote.Run "warehouse" "etl" [] (negb false)
                (if true then "cancel" else "finish") (Some recipients)])%list /\
    recipients <> [] /\
    PyStr.join "," recipients = "a@x,b@y" /\
    Forall (fun x => PyStr.contains "," x = false) recipients.
Proof.
  apply (run_flow_recipients flaky_server "warehouse" "etl" [] None None false true
           "a@x,b@y" 0 0 demo_session [] []).
  - reflexivity.
  - discriminate.
Defined.

Lemma main_run_type_error_witness :
  exists msg,
    main flaky_server demo_env demo_load None None 1 run_args (start 0)
    = Some (start 0, Raise (TypeError msg)).
Proof.
  apply (main_run_type_error flaky_server demo_env demo_load None None 1 run_args
           (VStr "warehouse") "warehouse" (start 0)).
  all: vm_compute; reflexivity.
Defined.

(** ** The shape of every run of the upload loops *)

Lemma rounds_snoc k U C : (rounds k U C ++ [U; C] = rounds (S k) U C)%list.
Proof. induction k as [|k IH]; simpl; [done|]. by rewrite IH. Qed.


Section LoopTrace.

Context {R : Type}.
Variable srv : Remote.server R.

(** Every run of the loop that ends sent [k] rounds of upload and create
    and then either one more upload (the one that succeeded, or whose error
    is raised) or nothing (the last creation failed); it wrote nothing. *)
Lemma retry_loop_trace create_after name _zip archive_name fuel w w' o :
  retry_loop srv create_after fuel name _zip archive_name w = Some (w', o) ->
  let U := Remote.Upload name _zip archive_name in
  let C := Remote.Create name name in
  stdout w' = stdout w /\
  exists k, k < fuel /\
    match o with
    | Return _ => calls w' = (calls w ++ rounds k U C ++ [U])%list
    | Raise (AzkabanError msg) =>
        (calls w' = (calls w ++ rounds k U C ++ [U])%list /\ create_after msg = false) \/
        calls w' = (calls w ++ rounds (S k) U C)%list
    | Raise _ =>
        calls w' = (calls w ++ rounds k U C ++ [U])%list \/
        calls w' = (calls w ++ rounds (S k) U C)%list
    end.
Proof.
  intros H U C. revert w H.
  induction fuel as [|fuel IH]; intros w H; [done|].
  simpl in H. unfold session_upload_project in H.
  destruct (Remote.upload srv name _zip archive_name (remote w)) as [r1 [res|e]].
  - injection H as <- <-. split; [done|]. exists 0. split; [lia|done].
  - assert (forall e', Some (World r1 (calls w ++ [U]) (stdout w), Raise e')
                       = Some (w', o) ->
              stdout w' = stdout w /\ calls w' = (calls w ++ rounds 0 U C ++ [U])%list
              /\ o = Raise e') as Hstop.
    { intros e' [= <- <-]. done. }
    destruct e;
      try (destruct (Hstop _ H) as (? & ? & ->); split; [done|];
           exists 0; split; [lia|]; by left).
    destruct (create_after msg) eqn:Hca.
    + unfold session_create_project in H. simpl in H.
      destruct (Remote.create srv name name r1) as [r2 [[]|e]].
      * apply IH in H as (Hout & k & Hk & Ho). simpl in Hout, Ho.
        split; [done|]. exists (S k). split; [lia|].
        rewrite <- !app_assoc in Ho. simpl in Ho.
        destruct o as [res|[]]; simpl; try done.
      * injection H as <- <-. split; [done|]. exists 0. split; [lia|].
        simpl. rewrite <- app_assoc. simpl.
        destruct e; by right.
    + destruct (Hstop _ H) as (? & ? & ->). split; [done|].
      exists 0. split; [lia|]. by left.
Qed.


(** The loop of [build_project] creates the project only after an upload
    refused with a message that ends in [doesn't exist.]: a run that ends
    with another [AzkabanError] of the upload sent no request after it. *)
Theorem build_loop_trace (name _zip archive_name : string) (_create : bool)
    (fuel : nat) (w w' : world R) (o : outcome Remote.upload_result) :
  build_project_loop srv fuel name _zip archive_name _create w = Some (w', o) ->
  let U := Remote.Upload name _zip (Some archive_name) in
  let C := Remote.Create name name in
  stdout w' = stdout w /\
  exists k, k < fuel /\
    match o with
    | Return _ => calls w' = (calls w ++ rounds k U C ++ [U])%list
    | Raise (AzkabanError msg) =>
        (calls w' = (calls w ++ rounds k U C ++ [U])%list /\
         (_create = false \/ PyStr.endswith msg "doesn't exist." = false)) \/
        calls w' = (calls w ++ rounds (S k) U C)%list
    | Raise _ =>
        calls w' = (calls w ++ rounds k U C ++ [U])%list \/
        calls w' = (calls w ++ rounds (S k) U C)%list
    end.
Proof.
  intros H U C. rewrite build_project_loop_shape in H.
  apply retry_loop_trace in H as (Hout & k & Hk & Ho).
  split; [done|]. exists k. split; [done|].
  destruct o as [res|[]]; try done.
  destruct Ho as [[Ho Hca]|Ho]; [left|by right].
  split; [done|]. apply andb_false_iff in Hca. by destruct Hca; [left|right].
Qed.

(** When the remote keeps refusing the upload with an [AzkabanError] and
    keeps accepting the creation, [upload_project] with [--create] never
    returns: no bound on the iterations is enough. *)
Theorem upload_project_diverges (env : local_env) (name _zip : string)
    (_url _alias : option string) (fuel : nat) (w : world R) :
  (forall r, exists r' msg,
     Remote.upload srv name _zip None r = (r', Raise (AzkabanError msg))) ->
  (forall r, exists r', Remote.create srv name name r = (r', Return tt)) ->
  (exists r0 session, Remote.connect srv _url _alias (remote w) = (r0, Return session)) ->
  upload_project srv env fuel name _zip _url _alias true w = None.
Proof.
  intros Hup Hcr (r0 & session & Hconn).
  assert (forall fuel w, upload_project_loop srv fuel name _zip true w = None) as Hloop.
  { intros n. induction n as [|n IH]; intros w0; [done|]. simpl.
    unfold session_upload_project.
    destruct (Hup (remote w0)) as (r1 & msg & ->).
    unfold session_create_project. simpl.
    destruct (Hcr r1) as (r2 & ->). apply IH. }
  destruct w as [r cs out]. simpl in Hconn.
  rewrite (upload_project_unfold srv env _ _ _ _ _ _ _ _ _ _ _ Hconn).
  by rewrite Hloop.
Qed.

(** When the remote accepts the first upload, [upload_project] sends that
    one request and writes its report, with or without [--create]. *)
Theorem upload_project_first_attempt (env : local_env) (name _zip : string)
    (_url _alias : option string) (_create : bool) (fuel : nat)
    (r r0 r1 : R) (session : Remote.session) (res : Remote.upload_result)
    (cs : list Remote.call) (out : list string) :
  Remote.connect srv _url _alias r = (r0, Return session) ->
  Remote.upload srv name _zip None r0 = (r1, Return res) ->
  upload_project srv env (S fuel) name _zip _url _alias _create (World r cs out)
  = Some (World r1 (cs ++ [Remote.Upload name _zip None])
                (out ++ [upload_report env name _zip session res]),
          Return tt).
Proof.
  intros Hconn Hup.
  rewrite (upload_project_unfold srv env _ _ _ _ _ _ _ _ _ _ _ Hconn).
  rewrite upload_project_loop_shape.
  by rewrite (retry_loop_done srv _ name _zip None fuel (World r0 cs out) r1 res Hup).
Qed.

End LoopTrace.


Lemma build_loop_trace_witness :
  let U := Remote.Upload "warehouse" "/tmp/azkaban.zip" (Some "warehouse-1.2.zip") in
  let C := Remote.Create "warehouse" "warehouse" in
  let w := start tt in
  let w' := World tt [U] [] in
  stdout w' = stdout w /\
  exists k, k < 1 /\
    ((calls w' = (calls w ++ rounds k U C ++ [U])%list /\
      (true = false \/
       PyStr.endswith "Permission denied. Need WRITE access." "doesn't exist." = false)) \/
     calls w' = (calls w ++ rounds (S k) U C)%list).
Proof.
  apply (build_loop_trace denying_server "warehouse" "/tmp/azkaban.zip" "warehouse-1.2.zip"
           true 1 (start tt)
           (World tt [Remote.Upload "warehouse" "/tmp/azkaban.zip" (Some "warehouse-1.2.zip")] [])
           (Raise (AzkabanError "Permission denied. Need WRITE access."))).
  reflexivity.
Defined.

Lemma upload_project_diverges_witness :
  upload_project stubborn_server demo_env 1000 "warehouse" "warehouse.zip" None None true
                 (start tt) = None.
Proof.
  apply (upload_project_diverges stubborn_server demo_env "warehouse" "warehouse.zip"
           None None 1000 (start tt)).
  - intros []. by eexists _, _.
  - intros []. by eexists.
  - by eexists _, _.
Defined.

Lemma upload_project_first_attempt_witness :
  upload_project flaky_server demo_env 1 "warehouse" "warehouse.zip" None None true (start 0)
  = Some (World 0 ([] ++ [Remote.Upload "warehouse" "warehouse.zip" None])
                  ([] ++ [upload_report demo_env "warehouse" "warehouse.zip"
                                        demo_session demo_upload]),
          Return tt).
Proof.
  apply (upload_project_first_attempt flaky_server demo_env "warehouse" "warehouse.zip"
           None None true 0 0 0 0 demo_session demo_upload [] []).
  - reflexivity.
  - reflexivity.
Defined.

(** ** [build_project] *)

Section BuildMore.

Context {R : Type}.
Variable srv : Remote.server R.
Variable env : local_env.




End BuildMore.

(** ** [view_info] with job arguments *)

Section ViewInfoMore.

Context {R : Type}.
Variable env : local_env.

Lemma build_jobs_known (project : Project.t) (known rest : list string) (w : world R) :
  Forall (fun n => is_Some (Project.jobs project !! n)) known ->
  build_jobs env project (known ++ rest) w
  = build_jobs env project rest
      (World (remote w) (calls w) (stdout w ++ concat (job_lines env project <$> known))).
Proof.
  intros Hk. revert w. induction Hk as [|n known [job Hn] Hk IH]; intros w.
  - simpl. rewrite app_nil_r. by destruct w.
  - simpl. rewrite Hn. unfold mbind, M_bind, write_all. simpl.
    rewrite IH. simpl. unfold job_lines at 2. rewrite Hn.
    change (PyStr.format "%s.job" [VStr n]) with (n +:+ ".job").
    by rewrite <- app_assoc.
Qed.

(** With job arguments [view_info] writes the project properties first
    when they are asked for, then the definition of each job in the order
    of the arguments; [--files] and [--options] play no part.  At the
    first name that is no job of the project it raises [KeyError] with that
    name, after the text of the jobs before it.  The remote is not
    involved. *)
Theorem view_info_jobs (project : Project.t) (_files : bool) (_options : option string)
    (known rest : list string) (_include_properties : bool) (w : world R) :
  (known ++ rest)%list <> [] ->
  Forall (fun n => is_Some (Project.jobs project !! n)) known ->
  match rest with
  | n :: _ => Project.jobs project !! n = None
  | [] => True
  end ->
  view_info env project _files _options (known ++ rest) _include_properties w
  = (World (remote w) (calls w)
           (stdout w ++
            (if _include_properties
             then properties_text env project "project.properties" else []) ++
            concat (job_lines env project <$> known)),
     match rest with
     | n :: _ => Raise (KeyError n)
     | [] => Return tt
     end).
Proof.
  intros Hne Hk Hrest. unfold view_info.
  destruct (known ++ rest)%list as [|n0 l0] eqn:E; [done|]. rewrite <- E. clear E n0 l0 Hne.
  unfold mbind, M_bind.
  assert (forall w0 : world R,
            build_jobs env project (known ++ rest) w0
            = (World (remote w0) (calls w0)
                     (stdout w0 ++ concat (job_lines env project <$> known)),
               match rest with n :: _ => Raise (KeyError n) | [] => Return tt end))
    as Hjobs.
  { intros w0. rewrite build_jobs_known by done.
    destruct rest as [|n rest]; [done|]. simpl. by rewrite Hrest. }
  destruct _include_properties.
  - unfold write_all. simpl. rewrite Hjobs. simpl. by rewrite <- app_assoc.
  - simpl. rewrite Hjobs. by destruct w.
Qed.

End ViewInfoMore.



Lemma view_info_jobs_witness :
  view_info demo_env warehouse true (Some "type") (["etl"] ++ ["nightly"; "report"]) false
            (start tt)
  = (World tt [] ([] ++ [] ++ concat (job_lines demo_env warehouse <$> ["etl"])),
     Raise (KeyError "nightly")).
Proof.
  apply (view_info_jobs demo_env warehouse true (Some "type") ["etl"]
           ["nightly"; "report"] false (start tt)).
  - discriminate.
  - repeat constructor. vm_compute. eexists. reflexivity.
  - vm_compute. reflexivity.
Defined.


(** ** [view_log] on the other outcomes *)

Section ViewLogMore.

Context {R : Type}.
Variable srv : Remote.server R.

(** [view_log] sends one log request, for the first job argument when
    there is one and for the whole execution otherwise, and writes every
    line it receives followed by a newline.  When the generator ends
    normally the command returns; when it ends with an exception that is no
    [HTTPError], that exception is raised as it is, after the lines
    received before it. *)
Theorem view_log_lines (_execution : string) (_job : list string)
    (_url _alias : option string) (r r0 r1 : R) (session : Remote.session)
    (lines : list string) (err : option exn)
    (cs : list Remote.call) (out : list string) :
  Remote.connect srv _url _alias r = (r0, Return session) ->
  Remote.logs srv _execution (head _job) r0 = (r1, (lines, err)) ->
  (forall http, err <> Some (HTTPError http)) ->
  view_log srv _execution _job _url _alias (World r cs out)
  = (World r1
           (cs ++ [match _job with
                   | job :: _ => Remote.JobLogs _execution job
                   | [] => Remote.Logs _execution
                   end])
           (out ++ ((fun line => line +:+ PyStr.nl) <$> lines)),
     match err with
     | None => Return tt
     | Some e => Raise e
     end).
Proof.
  intros Hconn Hlogs Herr.
  unfold view_log, mbind, M_bind, Session, write_logs. simpl.
  rewrite Hconn. simpl. rewrite Hlogs.
  destruct err as [[]|]; try done. by destruct (Herr msg).
Qed.

(** When the session cannot be opened, [view_log] raises that error: no
    log request is sent and nothing is written. *)
Theorem view_log_no_session (_execution : string) (_job : list string)
    (_url _alias : option string) (r r0 : R) (e : exn)
    (cs : list Remote.call) (out : list string) :
  Remote.connect srv _url _alias r = (r0, Raise e) ->
  view_log srv _execution _job _url _alias (World r cs out)
  = (World r0 cs out, Raise e).
Proof.
  intros Hconn. unfold view_log, mbind, M_bind, Session. simpl. by rewrite Hconn.
Qed.

End ViewLogMore.

Lemma view_log_lines_witness :
  view_log quiet_server "12" [] None None (start tt)
  = (World tt ([] ++ [Remote.Logs "12"])
           ([] ++ ((fun line => line +:+ PyStr.nl) <$> ["first"; "second"])),
     Return tt).
Proof.
  apply (view_log_lines quiet_server "12" [] None None tt tt tt demo_session
           ["first"; "second"] None [] []).
  - reflexivity.
  - reflexivity.
  - discriminate.
Defined.

Lemma view_log_no_session_witness :
  view_log quiet_server "12" ["etl"] None (Some "nobody") (start tt)
  = (World tt [] [], Raise (AzkabanError "Alias nobody not found.")).
Proof.
  apply (view_log_no_session quiet_server "12" ["etl"] None (Some "nobody") tt tt
           (AzkabanError "Alias nobody not found.") [] []).
  reflexivity.
Defined.

(** ** [main]: from the parsed arguments to the commands *)

Lemma selected_keys_NoDup (args : gmap string pyval) (names : list string) :
  NoDup (selected_keys args names).
Proof.
  unfold selected_keys. apply NoDup_fmap_fst.
  - intros k v1 v2 [_ H1]%list_elem_of_filter [_ H2]%list_elem_of_filter.
    apply elem_of_map_to_list in H1, H2. congruence.
  - apply NoDup_filter, NoDup_map_to_list.
Qed.

Lemma selected_keys_names (args : gmap string pyval) (names : list string) k :
  k ∈ selected_keys args names -> k ∈ names.
Proof.
  unfold selected_keys. intros ([k' v] & -> & [Hsel _]%list_elem_of_filter)%list_elem_of_fmap.
  simpl in *. by apply elem_of_list_to_set in Hsel.
Qed.

Lemma NoDup_fmap_inj_on {A B} (f : A -> B) (l : list A) x y :
  NoDup (f <$> l) -> x ∈ l -> y ∈ l -> f x = f y -> x = y.
Proof.
  induction l as [|a l IH]; csimpl; intros Hnd Hx Hy Hf.
  - by apply elem_of_nil in Hx.
  - apply NoDup_cons in Hnd as [Ha Hnd].
    apply elem_of_cons in Hx as [->|Hx]; apply elem_of_cons in Hy as [->|Hy]; try done.
    + destruct Ha. rewrite Hf. by apply list_elem_of_fmap_2.
    + destruct Ha. rewrite <- Hf. by apply list_elem_of_fmap_2.
    + by apply IH.
Qed.

(** When the names are renamed apart, the forwarded value of a name is the
    value of the argument, present or not. *)
Lemma forward_lookup (args : gmap string pyval) (names : list string) k :
  NoDup (forward_key <$> names) -> k ∈ names ->
  _forward args names !! forward_key k = args !! k.
Proof.
  intros Hnd Hk.
  assert (NoDup (forward_key <$> selected_keys args names)) as Hsel.
  { apply NoDup_fmap_2_strong; [|apply selected_keys_NoDup].
    intros x y Hx%selected_keys_names Hy%selected_keys_names.
    by apply (NoDup_fmap_inj_on forward_key names). }
  destruct (args !! k) as [v|] eqn:Hv.
  - by apply forward_complete.
  - destruct (_forward args names !! forward_key k) as [v|] eqn:E; [|done].
    apply forward_sound in E as (k' & Hk' & Hv' & Hkey).
    apply (NoDup_fmap_inj_on forward_key names) in Hkey; [|done..].
    congruence.
Qed.

Lemma filter_none {A} (P : A -> Prop) `{forall x, Decision (P x)} (l : list A) :
  (forall x, x ∈ l -> ~ P x) -> filter P l = [].
Proof.
  induction l as [|a l IH]; intros Hl; [done|].
  rewrite filter_cons, decide_False by (apply Hl; left).
  apply IH. intros x Hx. apply Hl. by right.
Qed.

(** The keywords forwarded for names that are renamed apart, that all are
    keys of [args] and whose renamed forms are the parameters, bind. *)
Lemma bind_keywords_forward (f : string) (params names : list string)
    (args : gmap string pyval) :
  NoDup (forward_key <$> names) ->
  (forall p, p ∈ params <-> p ∈ forward_key <$> names) ->
  (forall n, n ∈ names -> is_Some (args !! n)) ->
  bind_keywords f params (_forward args names) = Return tt.
Proof.
  intros Hnd Hparams Hargs. unfold bind_keywords.
  rewrite filter_none.
  - rewrite filter_none; [done|].
    intros p Hp%Hparams. apply list_elem_of_fmap in Hp as (n & -> & Hn).
    rewrite forward_lookup by done. destruct (Hargs n Hn) as [v ->]. done.
  - intros k Hk Hnot. apply Hnot.
    apply list_elem_of_fmap in Hk as ([k' v] & -> & Hin).
    apply elem_of_map_to_list in Hin. simpl.
    apply forward_sound in Hin as (n & Hn & _ & ->).
    apply Hparams. by apply list_elem_of_fmap_2.
Qed.

Lemma elem_of_names_cases (P : string -> Prop) (names : list string) :
  Forall P names -> forall n, n ∈ names -> P n.
Proof. intros H n Hn. by eapply Forall_forall in H. Qed.

Lemma forwarded_names_NoDup :
  NoDup (forward_key <$> build_names) /\ NoDup (forward_key <$> log_names) /\
  NoDup (forward_key <$> info_names) /\ NoDup (forward_key <$> upload_names).
Proof. split_and!; apply (bool_decide_unpack _); vm_compute; exact I. Qed.

Section MainCommands.

Context {R : Type}.
Variable srv : Remote.server R.
Variable env : local_env.
Variable load : string -> option string -> outcome Project.t.
Variable config_project : option string.
Variable handler : option string.

(** [--log] comes first: whatever else the arguments say, [main] writes
    the path of the log file, or fails with [No log file active.] when
    there is none; no project is resolved and the remote is not involved. *)
Theorem main_log_flag (fuel : nat) (args : gmap string pyval) (v : pyval) (w : world R) :
  args !! "--log" = Some v ->
  truthy v = true ->
  main srv env load config_project handler fuel args w
  = Some match handler with
         | Some baseFilename =>
             (World (remote w) (calls w) (stdout w ++ [baseFilename +:+ PyStr.nl]),
              Return tt)
         | None => (w, Raise (AzkabanError "No log file active."))
         end.
Proof.
  intros Hv Ht. unfold main, mbind, F_bind, total, of_outcome, getitem.
  rewrite Hv, Ht. by destruct handler.
Qed.

(** The [upload] command is [upload_project] on the resolved project name
    with the parsed [ZIP], [--url], [--alias] and [--create]: the names
    [main] forwards bind its parameters. *)
Theorem main_upload_command (fuel : nat) (args : gmap string pyval)
    (p u a : pyval) (name z : string) (c : bool) (w : world R) :
  args !! "--log" = Some (VBool false) ->
  args !! "build" = Some (VBool false) ->
  args !! "log" = Some (VBool false) ->
  args !! "info" = Some (VBool false) ->
  args !! "run" = Some (VBool false) ->
  args !! "upload" = Some (VBool true) ->
  args !! "--project" = Some p ->
  _get_project_name load config_project (text_of p) = Return name ->
  args !! "ZIP" = Some (VStr z) ->
  args !! "--create" = Some (VBool c) ->
  args !! "--url" = Some u ->
  args !! "--alias" = Some a ->
  main srv env load config_project handler fuel args w
  = upload_project srv env fuel name z (text_of u) (text_of a) c w.
Proof.
  intros Hlog Hbuild Hl Hinfo Hrun Hup Hp Hname Hz Hc Hu Ha.
  destruct forwarded_names_NoDup as (_ & _ & _ & Hnd).
  unfold main, mbind, F_bind, total, of_outcome, getitem.
  rewrite Hlog. cbn [truthy]. rewrite Hbuild. cbn [truthy]. rewrite Hl. cbn [truthy].
  rewrite Hinfo. cbn [truthy]. rewrite Hrun. cbn [truthy]. rewrite Hup. cbn [truthy].
  rewrite Hp, Hname.
  unfold call_upload_project, mbind, F_bind, total, of_outcome.
  rewrite (bind_keywords_forward "upload_project" _ upload_names args Hnd); cycle 1.
  { intros q. change (forward_key <$> upload_names)
      with ["_zip"; "_create"; "_url"; "_alias"].
    rewrite !elem_of_cons, !elem_of_nil. tauto. }
  { intros n Hn. unfold upload_names in Hn.
    repeat (apply elem_of_cons in Hn as [->|Hn]; [by eexists|]).
    by apply elem_of_nil in Hn. }
  unfold kw_string, kw_text, kw_flag.
  change "_zip" with (forward_key "ZIP").
  change "_url" with (forward_key "--url").
  change "_alias" with (forward_key "--alias").
  change "_create" with (forward_key "--create").
  rewrite !(forward_lookup args upload_names) by
    (first [exact Hnd | unfold upload_names; rewrite !elem_of_cons; tauto]).
  rewrite Hz, Hu, Ha, Hc. simpl.
  by destruct u, a.
Qed.

(** The [log] command is [view_log] with the parsed [EXECUTION], [JOB],
    [--url] and [--alias]; no project is resolved. *)
Theorem main_log_command (fuel : nat) (args : gmap string pyval)
    (u a : pyval) (e : string) (jobs : list string) (w : world R) :
  args !! "--log" = Some (VBool false) ->
  args !! "build" = Some (VBool false) ->
  args !! "log" = Some (VBool true) ->
  args !! "EXECUTION" = Some (VStr e) ->
  args !! "JOB" = Some (VList jobs) ->
  args !! "--url" = Some u ->
  args !! "--alias" = Some a ->
  main srv env load config_project handler fuel args w
  = Some (view_log srv e jobs (text_of u) (text_of a) w).
Proof.
  intros Hlog Hbuild Hl He Hj Hu Ha.
  destruct forwarded_names_NoDup as (_ & Hnd & _ & _).
  unfold main, mbind, F_bind, total, of_outcome, getitem.
  rewrite Hlog. cbn [truthy]. rewrite Hbuild. cbn [truthy]. rewrite Hl. cbn [truthy].
  unfold call_view_log, mbind, M_bind, of_outcome.
  rewrite (bind_keywords_forward "view_log" _ log_names args Hnd); cycle 1.
  { intros q. change (forward_key <$> log_names)
      with ["_execution"; "_job"; "_url"; "_alias"].
    done. }
  { intros n Hn. unfold log_names in Hn.
    repeat (apply elem_of_cons in Hn as [->|Hn]; [by eexists|]).
    by apply elem_of_nil in Hn. }
  unfold kw_string, kw_text, kw_list.
  change "_execution" with (forward_key "EXECUTION").
  change "_job" with (forward_key "JOB").
  change "_url" with (forward_key "--url").
  change "_alias" with (forward_key "--alias").
  rewrite !(forward_lookup args log_names) by
    (first [exact Hnd | unfold log_names; rewrite !elem_of_cons; tauto]).
  rewrite He, Hj, Hu, Ha. simpl.
  by destruct u, a.
Qed.

End MainCommands.

Lemma main_log_flag_witness :
  main flaky_server demo_env demo_load None (Some "/var/log/azkaban.log") 0
       (<["--log" := VBool true]> run_args) (start 0)
  = Some (World 0 [] ([] ++ ["/var/log/azkaban.log" +:+ PyStr.nl]), Return tt).
Proof.
  apply (main_log_flag flaky_server demo_env demo_load None (Some "/var/log/azkaban.log")
           0 (<["--log" := VBool true]> run_args) (VBool true) (start 0)).
  - vm_compute. reflexivity.
  - reflexivity.
Defined.

Lemma main_upload_command_witness :
  main flaky_server demo_env demo_load None None 2 upload_args (start 1)
  = upload_project flaky_server demo_env 2 "warehouse" "w.zip"
      (text_of (VStr "http://azkaban.server")) (text_of VNone) true (start 1).
Proof.
  apply (main_upload_command flaky_server demo_env demo_load None None 2 upload_args
           (VStr "warehouse") (VStr "http://azkaban.server") VNone "warehouse" "w.zip"
           true (start 1)).
  all: vm_compute; reflexivity.
Defined.

Lemma main_log_command_witness :
  main flaky_server demo_env demo_load None None 0 log_command_args (start 0)
  = Some (view_log flaky_server "12" ["etl"] (text_of VNone) (text_of (VStr "prod"))
                   (start 0)).
Proof.
  apply (main_log_command flaky_server demo_env demo_load None None 0 log_command_args
           VNone (VStr "prod") "12" ["etl"] (start 0)).
  all: vm_compute; reflexivity.
Defined.
